(** * goRCP: the authentication core of the SSO service

A shallow embedding of package [auth] (Login, RegisterNewUser, IsAdmin)
and of package [jwt] (NewToken), with the parts of the Go standard
library and of the third-party packages they call, followed by the
properties of the error-translation contract and of token issuance. *)

From Stdlib Require Import ZArith String List Bool Lia.
From stdpp Require Import base option gmap strings list pretty.

Local Open Scope string_scope.
Local Open Scope list_scope.
Local Open Scope Z_scope.

(* ===================================================================== *)
(** ** Go error values *)
(* ===================================================================== *)

(** Package [errors] and the [%w] verb of [fmt.Errorf].

    A Go [error] is either [nil] or a value; here [option error], with
    [None] for [nil].  Two sorts of values occur in this program:
    the [*errorString] that [errors.New] allocates, and the [*wrapError]
    that [fmt.Errorf] allocates for a format with one [%w].  Both are
    pointers, compared by address.  The address of an [errors.New] value
    is the [id] field: one id per package-level variable, so that two
    variables initialised with the same text stay distinct.  Errors that
    wrap several errors at once ([errors.Join], several [%w]) are not
    modelled. *)
Module errors.

Inductive error : Type :=
| errorString (id : string) (s : string)
| wrapError (msg : string) (err : error).

Definition New (id text : string) : error := errorString id text.

(** [err.Error()] *)
Definition Error (e : error) : string :=
  match e with
  | errorString _ s => s
  | wrapError msg _ => msg
  end.

(** [errors.Unwrap] *)
Definition Unwrap (e : error) : option error :=
  match e with
  | errorString _ _ => None
  | wrapError _ inner => Some inner
  end.

(** [err == target] for a target that is an [errors.New] value: equal
    addresses.  A wrapper is never such a value.  The model gives wrappers
    no address, so it cannot tell whether two of them are one pointer and
    answers no: [same], and [Is] below, are meant for [errors.New] targets
    only.  Those are the only targets of this program
    ([storage.ErrUserNotFound], [storage.ErrUserExists],
    [migrate.ErrNoChange]) and of the theorems about it. *)
Definition same (err target : error) : bool :=
  match err, target with
  | errorString i _, errorString j _ => bool_decide (i = j)
  | _, _ => false
  end.

(** [errors.Is] on a non-nil [err] and an [errors.New] target: walk the
    [Unwrap] chain, comparing each link with [target]. *)
Fixpoint Is (err target : error) : bool :=
  same err target ||
  match err with
  | errorString _ _ => false
  | wrapError _ inner => Is inner target
  end.

End errors.

Export errors(error).

Module fmt.

(** [fmt.Errorf("%s: %w", op, err)] *)
Definition Errorf (op : string) (err : error) : error :=
  errors.wrapError (op +:+ ": " +:+ errors.Error err) err.

End fmt.

(** A Go result pair [(T, error)]. *)
Abbreviation result T := (T * option error)%type.

(* ===================================================================== *)
(** ** Packages the core imports *)
(* ===================================================================== *)

(** Modelled from the spec: package [sso/internal/storage] is not among the
    sources.  The core reads two of its sentinels, [ErrUserNotFound] and
    [ErrUserExists]; the spec's collaborator contract adds a not-found
    outcome for the application reader. *)
Module storage.

Definition ErrUserNotFound : error :=
  errors.New "storage.ErrUserNotFound" "user not found".
Definition ErrUserExists : error :=
  errors.New "storage.ErrUserExists" "user already exists".
Definition ErrAppNotFound : error :=
  errors.New "storage.ErrAppNotFound" "app not found".

End storage.

(** Modelled from the spec: package [sso/internal/domain/models] is not
    among the sources.  The records carry the fields the core reads:
    [user.ID] (int64), [user.Email], [user.PassHash] ([]byte), [app.ID]
    (int) and [app.Secret].  The two records share this module, so
    [app.ID] is the field [AppID].  The core does no arithmetic on the
    numbers, which are plain [Z]. *)
Module models.

Record User : Type := mkUser
  { ID : Z; Email : string; PassHash : list Byte.byte }.

Record App : Type := mkApp
  { AppID : Z; Secret : string }.

(** The zero values, returned next to a non-nil error. *)
Definition zeroUser : User := mkUser 0 "" [].
Definition zeroApp : App := mkApp 0 "".

End models.

(** Package [time]: an instant as Unix seconds and the nanosecond within
    the second, a [Duration] as a count of nanoseconds (int64).  [Add]
    follows the standard library's: split the duration with Go's
    truncating [/] and [%], then carry.  The library saturates the seconds
    at the ends of int64; a clock reading plus an int64 duration (at most
    about 292 years) stays far inside, so the seconds are plain [Z]. *)
Module time.

Record Time : Type := mkTime { sec : Z; nsec : Z }.

Definition Duration : Type := Z.

Definition Second : Duration := 1000000000.
Definition Hour : Duration := 3600 * Second.

Definition Add (t : Time) (d : Duration) : Time :=
  let dsec := Z.quot d 1000000000 in
  let ns := nsec t + Z.rem d 1000000000 in
  if (1000000000 <=? ns)%Z
  then mkTime (sec t + (dsec + 1)) (ns - 1000000000)
  else if (ns <? 0)%Z then mkTime (sec t + (dsec - 1)) (ns + 1000000000)
  else mkTime (sec t + dsec) ns.

Definition Unix (t : Time) : Z := sec t.

(** An instant the clock can report: the nanosecond field is in range. *)
Definition wf (t : Time) : Prop := 0 <= nsec t < 1000000000.

(** [!t.After(u)]: [t] is not later than [u]. *)
Definition le (t u : Time) : Prop :=
  sec t < sec u \/ (sec t = sec u /\ nsec t <= nsec u).

(** The instant as nanoseconds since the epoch. *)
Definition UnixNano (t : Time) : Z := sec t * 1000000000 + nsec t.

End time.

(** Package [github.com/golang-jwt/jwt/v5], as far as [NewToken] uses it:
    the signing methods, [MapClaims] (a Go [map[string]interface{}]) and
    the [Token] that [jwt.New] builds. *)
Module jwtv5.

Inductive SigningMethod : Type :=
| SigningMethodNone
| SigningMethodHS256 | SigningMethodHS384 | SigningMethodHS512
| SigningMethodRS256 | SigningMethodES256.

Definition Alg (m : SigningMethod) : string :=
  match m with
  | SigningMethodNone => "none"
  | SigningMethodHS256 => "HS256"
  | SigningMethodHS384 => "HS384"
  | SigningMethodHS512 => "HS512"
  | SigningMethodRS256 => "RS256"
  | SigningMethodES256 => "ES256"
  end.

(** The dynamic values this program stores in a claims map. *)
Inductive value : Type :=
| Int64 (n : Z)
| Int (n : Z)
| Str (s : string).

Abbreviation MapClaims := (gmap string value).

Record Token : Type := mkToken
  { Method : SigningMethod;
    Header : gmap string string;
    Claims : MapClaims }.

(** [jwt.New(method)] *)
Definition New (method : SigningMethod) : Token :=
  {| Method := method;
     Header := <["alg" := Alg method]> (<["typ" := "JWT"]> ∅);
     Claims := ∅ |}.

(** [claims[k] = v] on the token's claims. *)
Definition set_claim (k : string) (v : value) (t : Token) : Token :=
  {| Method := Method t; Header := Header t;
     Claims := <[k := v]> (Claims t) |}.

End jwtv5.

(** Package [golang.org/x/crypto/bcrypt]: the constants and sentinels. *)
Module bcrypt.

Definition DefaultCost : Z := 10.

Definition ErrMismatchedHashAndPassword : error :=
  errors.New "bcrypt.ErrMismatchedHashAndPassword"
    "crypto/bcrypt: hashedPassword is not the hash of the given password".
Definition ErrPasswordTooLong : error :=
  errors.New "bcrypt.ErrPasswordTooLong"
    "bcrypt: password length exceeds 72 bytes".

End bcrypt.

(* ===================================================================== *)
(** ** The machine: collaborators, libraries and the record of calls *)
(* ===================================================================== *)

(** Everything the core does besides computing is a call: to a storage
    collaborator, to a library, or to the logger.  The machine keeps the
    state those calls read and change (the [world]: database, clock,
    entropy), and the list of calls made so far, oldest first. *)
Module machine.

Inductive Level : Type := LevelInfo | LevelWarn | LevelError.

Inductive Event : Type :=
| EvLog (level : Level) (msg : string)
| EvUser (email : string)
| EvIsAdmin (userID : Z)
| EvApp (appID : Z)
| EvSaveUser (email : string) (passHash : list Byte.byte)
| EvCompareHashAndPassword (hashedPassword password : list Byte.byte)
| EvGenerateFromPassword (password : list Byte.byte) (cost : Z)
| EvNow
| EvSignedString (token : jwtv5.Token) (key : list Byte.byte).

Record Machine (W : Type) : Type := mkMachine
  { world : W; trace : list Event }.
Arguments mkMachine {W} _ _.
Arguments world {W} _.
Arguments trace {W} _.

(** A computation that returns an [A]. *)
Definition Go (W A : Type) : Type := Machine W → A * Machine W.

Definition ret {W A} (a : A) : Go W A := λ m, (a, m).

Definition bind {W A B} (c : Go W A) (k : A → Go W B) : Go W B :=
  λ m, let (a, m') := c m in k a m'.

(** Record [ev], then let the callee [f] run on the world. *)
Definition call {W A} (ev : Event) (f : W → A * W) : Go W A :=
  λ m, let (a, w') := f (world m) in
       (a, mkMachine w' (trace m ++ [ev])).

(** A call to a function that reads no state. *)
Definition call_pure {W A} (ev : Event) (a : A) : Go W A :=
  call ev (λ w, (a, w)).

(** The three logger methods the core uses.  The attributes of a log
    line (operation, email, error text) are not kept. *)
Definition Info {W} (msg : string) : Go W unit :=
  call_pure (EvLog LevelInfo msg) tt.
Definition Warn {W} (msg : string) : Go W unit :=
  call_pure (EvLog LevelWarn msg) tt.
Definition Error {W} (msg : string) : Go W unit :=
  call_pure (EvLog LevelError msg) tt.

(** The calls of a trace without the log lines. *)
Definition is_log (ev : Event) : bool :=
  match ev with EvLog _ _ => true | _ => false end.

Definition calls (tr : list Event) : list Event :=
  List.filter (λ ev, negb (is_log ev)) tr.

(** What the libraries compute.  Comparing a password with a hash and
    signing a token are functions of their arguments; hashing a password
    draws a salt and reading the clock reads the world. *)
Class Platform (W : Type) : Type := mkPlatform
  { CompareHashAndPassword :
      list Byte.byte → list Byte.byte → option error;
    GenerateFromPassword :
      list Byte.byte → Z → W → result (list Byte.byte) * W;
    Now : W → time.Time * W;
    SignedString : jwtv5.Token → list Byte.byte → result string }.

End machine.

Import machine.

(** Sequencing uses stdpp's monad notations: [x ← c; k] and [c ;; k]. *)
#[global] Instance Go_ret {W} : MRet (Go W) := @ret W.
#[global] Instance Go_bind {W} : MBind (Go W) := λ A B k c, bind c k.

(* ===================================================================== *)
(** ** Package jwt: token issuance *)
(* ===================================================================== *)

Module jwt.
Section NewToken.

Context {W : Type} `{Platform W}.

(** The token [NewToken] hands to the signer when the clock reads
    [now]: the four assignments to the claims map, in source order. *)
Definition build
    (user : models.User) (app : models.App)
    (duration : time.Duration) (now : time.Time) : jwtv5.Token :=
  let token := jwtv5.New jwtv5.SigningMethodHS256 in
  let token := jwtv5.set_claim "uid" (jwtv5.Int64 (models.ID user)) token in
  let token := jwtv5.set_claim "app_id" (jwtv5.Int (models.AppID app)) token in
  let token :=
    jwtv5.set_claim "exp"
      (jwtv5.Int64 (time.Unix (time.Add now duration))) token in
  jwtv5.set_claim "email" (jwtv5.Str (models.Email user)) token.

Definition NewToken
    (user : models.User) (app : models.App) (duration : time.Duration)
  : Go W (result string) :=
  now ← call EvNow Now;
  let token := build user app duration now in
  let key := list_byte_of_string (models.Secret app) in
  '(tokenString, err) ← call_pure (EvSignedString token key)
                                  (SignedString token key);
  match err with
  | Some err => ret ("", Some err)
  | None => ret (tokenString, None)
  end.

End NewToken.
End jwt.

(* ===================================================================== *)
(** ** Package auth: Login, RegisterNewUser, IsAdmin *)
(* ===================================================================== *)

Module auth.

(** The sentinels of the package, in source order. *)
Definition ErrInvalidCredentials : error :=
  errors.New "auth.ErrInvalidCredentials" "invalid credentials".
Definition ErrInvalidAppID : error :=
  errors.New "auth.ErrInvalidAppID" "invalid app id".
Definition ErrUserExists : error :=
  errors.New "auth.ErrUserExists" "user already exists".
Definition ErrUserNotFound : error :=
  errors.New "auth.ErrUserNotFound" "user not found".

(** The three interfaces.  A method takes its arguments and the world
    and returns Go's pair of a value and an error, and the world it
    leaves.  The context argument is not modelled. *)
Record UserSaver (W : Type) : Type := mkUserSaver
  { SaveUser : string → list Byte.byte → W → result Z * W }.

Record UserProvider (W : Type) : Type := mkUserProvider
  { User : string → W → result models.User * W;
    ProviderIsAdmin : Z → W → result bool * W }.

Record AppProvider (W : Type) : Type := mkAppProvider
  { App : Z → W → result models.App * W }.

Arguments SaveUser {W} _ _ _ _.
Arguments User {W} _ _ _.
Arguments ProviderIsAdmin {W} _ _ _.
Arguments App {W} _ _ _.

(** [type Auth struct]; the logger is the machine's trace. *)
Record Auth (W : Type) : Type := New
  { usrSaver : UserSaver W;
    usrProvider : UserProvider W;
    appProvider : AppProvider W;
    tokenTTL : time.Duration }.

Arguments New {W} _ _ _ _.
Arguments usrSaver {W} _.
Arguments usrProvider {W} _.
Arguments appProvider {W} _.
Arguments tokenTTL {W} _.

Section Operations.

Context {W : Type} `{Platform W}.

Definition Login
    (a : Auth W) (email password : string) (appID : Z)
  : Go W (result string) :=
  let op := "auth.Login" in
  Info "attempting to login user";;
  '(user, err) ← call (EvUser email) (User (usrProvider a) email);
  match err with
  | Some err =>
      if errors.Is err storage.ErrUserNotFound then
        Warn "user not found";;
        ret ("", Some (fmt.Errorf op ErrInvalidCredentials))
      else
        Error "failed to get user";;
        ret ("", Some (fmt.Errorf op err))
  | None =>
      let hashedPassword := models.PassHash user in
      let pw := list_byte_of_string password in
      err ← call_pure (EvCompareHashAndPassword hashedPassword pw)
                      (CompareHashAndPassword hashedPassword pw);
      match err with
      | Some err =>
          Info "invalid password";;
          ret ("", Some (fmt.Errorf op ErrInvalidCredentials))
      | None =>
          '(app, err) ← call (EvApp appID) (App (appProvider a) appID);
          match err with
          | Some err => ret ("", Some (fmt.Errorf op err))
          | None =>
              Info "user logged in successfully";;
              '(token, err) ← jwt.NewToken user app (tokenTTL a);
              match err with
              | Some err =>
                  Error "failed to create token";;
                  ret ("", Some (fmt.Errorf op err))
              | None => ret (token, None)
              end
          end
      end
  end.

Definition RegisterNewUser
    (a : Auth W) (email password : string)
  : Go W (result Z) :=
  let op := "auth.RegisterNewUser" in
  Info "registering new user";;
  let pw := list_byte_of_string password in
  '(passHash, err) ← call (EvGenerateFromPassword pw bcrypt.DefaultCost)
                          (GenerateFromPassword pw bcrypt.DefaultCost);
  match err with
  | Some err =>
      Error "failed to hash password";;
      ret (0, Some (fmt.Errorf op err))
  | None =>
      '(id, err) ← call (EvSaveUser email passHash)
                        (SaveUser (usrSaver a) email passHash);
      match err with
      | Some err =>
          if errors.Is err storage.ErrUserExists then
            Warn "user already exists";;
            ret (0, Some (fmt.Errorf op ErrUserExists))
          else
            Error "failed to save user";;
            ret (0, Some (fmt.Errorf op err))
      | None =>
          Info "user registered successfully";;
          ret (id, None)
      end
  end.

Definition IsAdmin (a : Auth W) (userID : Z) : Go W (result bool) :=
  let op := "auth.IsAdmin" in
  Info "checking if user is admin";;
  '(isAdmin, err) ← call (EvIsAdmin userID)
                         (ProviderIsAdmin (usrProvider a) userID);
  match err with
  | Some err =>
      if errors.Is err storage.ErrUserNotFound then
        Warn "user not found";;
        ret (false, Some (fmt.Errorf op ErrInvalidAppID))
      else
        ret (false, Some (fmt.Errorf op err))
  | None =>
      Info "checked if user is admin";;
      ret (isAdmin, None)
  end.

End Operations.
End auth.

(* ===================================================================== *)
(** ** The caller-facing error vocabulary *)
(* ===================================================================== *)

(** A caller tells the kinds apart with [errors.Is] against the sentinels
    of package [auth]; an error that matches none of them is internal. *)
Module kinds.

Inductive Kind : Type :=
| InvalidCredentials | InvalidAppID | UserExists | Internal.

Definition has_kind (e : error) (k : Kind) : Prop :=
  match k with
  | InvalidCredentials => errors.Is e auth.ErrInvalidCredentials = true
  | InvalidAppID => errors.Is e auth.ErrInvalidAppID = true
  | UserExists => errors.Is e auth.ErrUserExists = true
  | Internal =>
      errors.Is e auth.ErrInvalidCredentials = false ∧
      errors.Is e auth.ErrInvalidAppID = false ∧
      errors.Is e auth.ErrUserExists = false
  end.

(** [e] is of kind [k] and of no other kind. *)
Definition kind_is (e : error) (k : Kind) : Prop :=
  has_kind e k ∧ ∀ k', has_kind e k' → k' = k.

(** A result pair that carries an error of kind [k], and of no other. *)
Definition fails_with {A} (r : result A) (k : Kind) : Prop :=
  ∃ e, r.2 = Some e ∧ kind_is e k.

(** An error from outside package [auth]: none of the package's
    sentinels is on its chain.  Errors of the storage layer, of bcrypt
    and of the token library are of this sort: those packages cannot
    import [auth], which imports them. *)
Definition foreign (e : error) : bool :=
  negb (errors.Is e auth.ErrInvalidCredentials) &&
  negb (errors.Is e auth.ErrInvalidAppID) &&
  negb (errors.Is e auth.ErrUserExists) &&
  negb (errors.Is e auth.ErrUserNotFound).


End kinds.

Import kinds.

(* ===================================================================== *)
(** ** What a Login reads *)
(* ===================================================================== *)

Section Reads.

Context {W : Type} `{Platform W}.

(** Started on machine [m], [Login] asks the user reader first, the
    application reader on the world the user reader left, and the clock
    on the world the application reader left.  [Login_reads] names the
    three answers, whether or not the run gets as far as asking. *)
Definition Login_reads
    (a : auth.Auth W) (email : string) (appID : Z) (m : Machine W)
    (user : models.User) (uerr : option error)
    (app : models.App) (aerr : option error) (now : time.Time) : Prop :=
  ∃ w1 w2 w3,
    auth.User (auth.usrProvider a) email (world m) = ((user, uerr), w1) ∧
    auth.App (auth.appProvider a) appID w1 = ((app, aerr), w2) ∧
    Now w2 = (now, w3).

(** The calls of a run that gets past all three checks. *)
Definition Login_full_trace
    (a : auth.Auth W) (email password : string) (appID : Z)
    (user : models.User) (app : models.App) (now : time.Time)
  : list Event :=
  [ EvLog LevelInfo "attempting to login user";
    EvUser email;
    EvCompareHashAndPassword (models.PassHash user)
      (list_byte_of_string password);
    EvApp appID;
    EvLog LevelInfo "user logged in successfully";
    EvNow;
    EvSignedString (jwt.build user app (auth.tokenTTL a) now)
      (list_byte_of_string (models.Secret app)) ].

End Reads.

(** The signer calls of a trace. *)
Definition signings (tr : list Event) : list Event :=
  List.filter
    (λ ev, match ev with EvSignedString _ _ => true | _ => false end) tr.

(** The [exp] claim of a token, when it is an int64. *)
Definition exp_of (tok : jwtv5.Token) : option Z :=
  match jwtv5.Claims tok !! "exp" with
  | Some (jwtv5.Int64 n) => Some n
  | _ => None
  end.

(* ===================================================================== *)
(** ** An in-memory storage and library stand-in *)
(* ===================================================================== *)

(** Concrete collaborators to run the core on: a table of users, a table
    of applications, a clock that advances at each reading, a flag for a
    storage that fails every query, and stand-ins for bcrypt and for the
    token signer. *)
Module fake.

Record World : Type := mkWorld
  { users : list (models.User * bool);
    apps : list models.App;
    clock : time.Time;
    disk_ok : bool }.

Definition ErrDiskIO : error :=
  errors.New "sqlite3.ErrIoErr" "disk I/O error".

Definition by_email (email : string) (w : World)
  : option (models.User * bool) :=
  List.find (λ row, String.eqb (models.Email row.1) email) (users w).

Definition by_id (id : Z) (w : World) : option (models.User * bool) :=
  List.find (λ row, Z.eqb (models.ID row.1) id) (users w).

Definition User (email : string) (w : World)
  : result models.User * World :=
  if disk_ok w then
    match by_email email w with
    | Some row => ((row.1, None), w)
    | None =>
        ((models.zeroUser,
          Some (fmt.Errorf "storage.sqlite.User" storage.ErrUserNotFound)),
         w)
    end
  else
    ((models.zeroUser, Some (fmt.Errorf "storage.sqlite.User" ErrDiskIO)),
     w).

Definition IsAdmin (id : Z) (w : World) : result bool * World :=
  if disk_ok w then
    match by_id id w with
    | Some row => ((row.2, None), w)
    | None =>
        ((false,
          Some (fmt.Errorf "storage.sqlite.IsAdmin"
                  storage.ErrUserNotFound)),
         w)
    end
  else
    ((false, Some (fmt.Errorf "storage.sqlite.IsAdmin" ErrDiskIO)), w).

Definition App (id : Z) (w : World) : result models.App * World :=
  if disk_ok w then
    match List.find (λ app, Z.eqb (models.AppID app) id) (apps w) with
    | Some app => ((app, None), w)
    | None =>
        ((models.zeroApp,
          Some (fmt.Errorf "storage.sqlite.App" storage.ErrAppNotFound)),
         w)
    end
  else
    ((models.zeroApp, Some (fmt.Errorf "storage.sqlite.App" ErrDiskIO)), w).

Definition SaveUser (email : string) (passHash : list Byte.byte)
    (w : World) : result Z * World :=
  if disk_ok w then
    match by_email email w with
    | Some _ =>
        ((0, Some (fmt.Errorf "storage.sqlite.SaveUser"
                     storage.ErrUserExists)),
         w)
    | None =>
        let id := Z.of_nat (length (users w)) + 1 in
        ((id, None),
         {| users := users w ++ [(models.mkUser id email passHash, false)];
            apps := apps w; clock := clock w; disk_ok := disk_ok w |})
    end
  else
    ((0, Some (fmt.Errorf "storage.sqlite.SaveUser" ErrDiskIO)), w).

(** The stand-in hash: a prefix and the password itself. *)
Definition hash (password : list Byte.byte) : list Byte.byte :=
  list_byte_of_string "$2a$10$" ++ password.

Fixpoint bytes_eqb (a b : list Byte.byte) : bool :=
  match a, b with
  | [], [] => true
  | x :: a', y :: b' => Byte.eqb x y && bytes_eqb a' b'
  | _, _ => false
  end.

Definition CompareHashAndPassword (hashedPassword password : list Byte.byte)
  : option error :=
  if bytes_eqb hashedPassword (hash password) then None
  else Some bcrypt.ErrMismatchedHashAndPassword.

Definition GenerateFromPassword (password : list Byte.byte) (cost : Z)
    (w : World) : result (list Byte.byte) * World :=
  if (72 <? Z.of_nat (length password))%Z
  then (([], Some bcrypt.ErrPasswordTooLong), w)
  else ((hash password, None), w).

(** Each reading of the clock advances it by a second and a half. *)
Definition Now (w : World) : time.Time * World :=
  (clock w,
   {| users := users w; apps := apps w;
      clock := time.Add (clock w) 1500000000; disk_ok := disk_ok w |}).

Definition render (v : jwtv5.value) : string :=
  match v with
  | jwtv5.Int64 n => pretty n
  | jwtv5.Int n => pretty n
  | jwtv5.Str s => s
  end.

(** The stand-in signer: the algorithm, the claims in key order, and the
    length of the key.  Like HS256 on claims of integers and strings, it
    signs with any key and returns no error. *)
Definition SignedString (tok : jwtv5.Token) (key : list Byte.byte)
  : result string :=
  (jwtv5.Alg (jwtv5.Method tok) +:+ "."
   +:+ String.concat ","
         (List.map (λ kv, kv.1 +:+ "=" +:+ render kv.2)
            (map_to_list (jwtv5.Claims tok)))
   +:+ "." +:+ pretty (length key),
   None).

#[global] Instance platform : Platform World :=
  {| machine.CompareHashAndPassword := CompareHashAndPassword;
     machine.GenerateFromPassword := GenerateFromPassword;
     machine.Now := Now;
     machine.SignedString := SignedString |}.

Definition service (tokenTTL : time.Duration) : auth.Auth World :=
  auth.New (auth.mkUserSaver World SaveUser)
           (auth.mkUserProvider World User IsAdmin)
           (auth.mkAppProvider World App)
           tokenTTL.

(** The spec's scenario: user 1 is [a@x.com] with password [pw123],
    not an administrator; application 1 has a secret. *)
Definition alice : models.User :=
  models.mkUser 1 "a@x.com" (hash (list_byte_of_string "pw123")).

Definition world0 : World :=
  {| users := [(alice, false)];
     apps := [models.mkApp 1 "test-secret"];
     clock := time.mkTime 1700000000 750000000;
     disk_ok := true |}.

(** The storage before anyone registered. *)
Definition empty : World :=
  {| users := []; apps := apps world0; clock := clock world0;
     disk_ok := true |}.

Definition broken : World :=
  {| users := users world0; apps := apps world0; clock := clock world0;
     disk_ok := false |}.

Definition start (w : World) : Machine World := mkMachine w [].

End fake.

(** Collaborators written where package [auth] can be imported (a test
    double, an adapter in package main): they implement the interfaces and
    fail with the sentinels of package [auth] itself.  The user reader is
    the stand-in's. *)
Module hostile.

Definition App (appID : Z) (w : fake.World)
  : result models.App * fake.World :=
  ((models.zeroApp, Some auth.ErrInvalidCredentials), w).

Definition IsAdmin (userID : Z) (w : fake.World)
  : result bool * fake.World :=
  ((false, Some auth.ErrInvalidAppID), w).

Definition SaveUser (email : string) (passHash : list Byte.byte)
    (w : fake.World) : result Z * fake.World :=
  ((0, Some auth.ErrUserExists), w).

Definition service (tokenTTL : time.Duration) : auth.Auth fake.World :=
  auth.New (auth.mkUserSaver fake.World SaveUser)
           (auth.mkUserProvider fake.World fake.User IsAdmin)
           (auth.mkAppProvider fake.World App)
           tokenTTL.

End hostile.

(* ===================================================================== *)
(** ** How a call ends *)
(* ===================================================================== *)

(** A Go function that may panic either returns its value or unwinds with
    the value given to [panic]: a string or an error in this program. *)
Module goexit.

Inductive PanicValue : Type :=
| PanicString (s : string)
| PanicError (e : error).

Inductive Outcome (A : Type) : Type :=
| Returned (a : A)
| Panicked (v : PanicValue).

Arguments Returned {A} _.
Arguments Panicked {A} _.

Definition returned {A} (o : Outcome A) : bool :=
  match o with Returned _ => true | Panicked _ => false end.

End goexit.

Import goexit.

(* ===================================================================== *)
(** ** Command migrator *)
(* ===================================================================== *)

(** Package [github.com/golang-migrate/migrate/v4]: its no-change
    sentinel. *)
Module migrate.

Definition ErrNoChange : error :=
  errors.New "migrate.ErrNoChange" "no change".

End migrate.

(** [cmd/migrator/main.go].  [flag.Parse] belongs to the standard library:
    [main] is modelled from the point where it returned, on the values it
    left in the three flag variables (each defaults to the empty string).
    The migration library is a parameter: [New] opens source and database
    and [Up] applies what is pending, both on the world. *)
Module migrator.

Inductive Event : Type :=
| EvNew (sourceURL databaseURL : string)
| EvUp
| EvPrintln (line : string).

Class Library (W M : Type) : Type := mkLibrary
  { New : string → string → W → result M * W;
    Up : M → W → option error * W }.

Record Flags : Type := mkFlags
  { storagePath : string; migrationPath : string; migrationsTable : string }.

(** ["file://"+migrationPath] *)
Definition sourceURL (fl : Flags) : string :=
  "file://" +:+ migrationPath fl.

(** [fmt.Sprintf("sqlite3://%s?x-migrations-table=%s", storagePath,
    migrationsTable)] *)
Definition databaseURL (fl : Flags) : string :=
  "sqlite3://" +:+ storagePath fl
  +:+ "?x-migrations-table=" +:+ migrationsTable fl.

(** The lines printed, in order. *)
Definition printed (evs : list Event) : list string :=
  List.flat_map
    (λ ev, match ev with EvPrintln line => [ line ] | _ => [] end) evs.

Section Main.

Context {W M : Type} {L : Library W M}.

(** The result is how [main] ended, what it called and printed, oldest
    first, and the world it left. *)
Definition main (fl : Flags) (w : W) : Outcome unit * list Event * W :=
  if String.eqb (storagePath fl) "" then
    (Panicked (PanicString "storage path is required"), [], w)
  else if String.eqb (migrationPath fl) "" then
    (Panicked (PanicString "migrations path is required"), [], w)
  else
    let '((m, err), w1) := New (sourceURL fl) (databaseURL fl) w in
    let opened := [ EvNew (sourceURL fl) (databaseURL fl) ] in
    match err with
    | Some err => (Panicked (PanicError err), opened, w1)
    | None =>
        let '(err, w2) := Up m w1 in
        match err with
        | Some err =>
            if errors.Is err migrate.ErrNoChange then
              (Returned tt,
               opened ++ [ EvUp; EvPrintln "No new migrations to apply" ],
               w2)
            else (Panicked (PanicError err), opened ++ [ EvUp ], w2)
        | None =>
            (Returned tt,
             opened ++ [ EvUp; EvPrintln "Migrations applied successfully" ],
             w2)
        end
    end.

End Main.
End migrator.

(* ===================================================================== *)
(** ** Package config *)
(* ===================================================================== *)

(** [MustLoad] and [fetchConfigPath].  As for the migrator, the model
    starts after [flag.Parse], on the value it left in the flag variable.
    The environment, the file system and the configuration reader
    ([cleanenv.ReadConfig], which also applies the defaults of the struct
    tags) are parameters that read the world. *)
Module config.

Record GRPCCoinfig : Type := mkGRPCCoinfig
  { Port : Z; TimeOut : time.Duration }.

Record Config : Type := mkConfig
  { Env : string;
    StoragePath : string;
    GRPC : GRPCCoinfig;
    TokenTTL : time.Duration }.

Inductive Event : Type :=
| EvGetenv (key : string)
| EvStat (name : string)
| EvReadConfig (path : string).

Class OS (W : Type) : Type := mkOS
  { Getenv : string → W → string;
    Stat : string → W → option error;
    NotExist : error → bool;
    ReadConfig : string → W → Config * option error }.

Section Load.

Context {W : Type} {os : OS W}.

(** [os.IsNotExist]: false on [nil]. *)
Definition IsNotExist (err : option error) : bool :=
  match err with
  | None => false
  | Some e => NotExist e
  end.

Definition fetchConfigPath (flagValue : string) (w : W)
  : string * list Event :=
  if String.eqb flagValue "" then
    (Getenv "CONFIG_PATH" w, [ EvGetenv "CONFIG_PATH" ])
  else (flagValue, []).

Definition MustLoad (flagValue : string) (w : W)
  : Outcome Config * list Event :=
  let '(path, evs) := fetchConfigPath flagValue w in
  if String.eqb path "" then
    (Panicked (PanicString "config path is required"), evs)
  else if IsNotExist (Stat path w) then
    (Panicked (PanicString "config file not found"), evs ++ [ EvStat path ])
  else
    let '(cfg, err) := ReadConfig path w in
    let evs := evs ++ [ EvStat path; EvReadConfig path ] in
    match err with
    | Some err => (Panicked (PanicString (errors.Error err)), evs)
    | None => (Returned cfg, evs)
    end.

End Load.
End config.

(* ===================================================================== *)
(** ** Which calls an operation may make *)
(* ===================================================================== *)

Module footprint.

(** The events of a Login for [email] and [appID]: log lines, the user
    reader on that email, the comparison, the application reader on that
    id, the clock and the signer. *)
Definition Login_may (email : string) (appID : Z) (ev : Event) : Prop :=
  match ev with
  | EvLog _ _ | EvCompareHashAndPassword _ _ | EvNow
  | EvSignedString _ _ => True
  | EvUser e => e = email
  | EvApp id => id = appID
  | EvIsAdmin _ | EvSaveUser _ _ | EvGenerateFromPassword _ _ => False
  end.

(** The events of a RegisterNewUser for [email]: log lines, the hashing
    at the default cost, and the writer on that email. *)
Definition Register_may (email : string) (ev : Event) : Prop :=
  match ev with
  | EvLog _ _ => True
  | EvGenerateFromPassword _ cost => cost = bcrypt.DefaultCost
  | EvSaveUser e _ => e = email
  | _ => False
  end.

(** The events of an IsAdmin for [userID]: log lines and the admin-status
    reader on that id. *)
Definition IsAdmin_may (userID : Z) (ev : Event) : Prop :=
  match ev with
  | EvLog _ _ => True
  | EvIsAdmin id => id = userID
  | _ => False
  end.


End footprint.

(* ===================================================================== *)
(** ** Stand-ins for the migration library and the host *)
(* ===================================================================== *)

Module fakeops.

(** A database with a schema version, the version the migration files
    reach, and two ways to fail. *)
Record DB : Type := mkDB
  { version : nat; latest : nat; reachable : bool; dirty : bool }.

Definition ErrOpen : error :=
  errors.New "sqlite3.ErrCantOpen" "unable to open database file".
Definition ErrDirty : error :=
  errors.New "migrate.ErrDirty" "Dirty database version".

Definition New (sourceURL databaseURL : string) (db : DB)
  : result unit * DB :=
  if reachable db then ((tt, None), db) else ((tt, Some ErrOpen), db).

Definition Up (m : unit) (db : DB) : option error * DB :=
  if dirty db then (Some ErrDirty, db)
  else if (version db <? latest db)%nat then
    (None,
     {| version := latest db; latest := latest db;
        reachable := reachable db; dirty := dirty db |})
  else (Some migrate.ErrNoChange, db).

#[global] Instance library : migrator.Library DB unit :=
  {| migrator.New := New; migrator.Up := Up |}.

Definition fresh : DB :=
  {| version := 0; latest := 2; reachable := true; dirty := false |}.

Definition current : DB :=
  {| version := 2; latest := 2; reachable := true; dirty := false |}.

Definition flags : migrator.Flags :=
  migrator.mkFlags "./storage/sso.db" "./migrations" "".

(** A host: the environment, and the files with what reading each as a
    configuration gives. *)
Inductive File : Type :=
| Readable (cfg : config.Config)
| Garbled
| Denied.

Record Host : Type := mkHost
  { environ : list (string * string);
    files : list (string * File) }.

Definition ErrNotExist : error :=
  errors.New "fs.ErrNotExist" "file does not exist".
Definition ErrPermission : error :=
  errors.New "fs.ErrPermission" "permission denied".
Definition ErrParse : error :=
  errors.New "yaml.ErrParse" "config file parsing error".

Definition lookup {A : Type} (key : string) (l : list (string * A))
  : option A :=
  match List.find (λ kv, String.eqb kv.1 key) l with
  | Some kv => Some kv.2
  | None => None
  end.

Definition Getenv (key : string) (h : Host) : string :=
  match lookup key (environ h) with Some v => v | None => "" end.

Definition Stat (name : string) (h : Host) : option error :=
  match lookup name (files h) with
  | Some Denied => Some ErrPermission
  | Some _ => None
  | None => Some ErrNotExist
  end.

Definition zeroConfig : config.Config :=
  config.mkConfig "" "" (config.mkGRPCCoinfig 0 0) 0.

Definition ReadConfig (path : string) (h : Host)
  : config.Config * option error :=
  match lookup path (files h) with
  | Some (Readable cfg) => (cfg, None)
  | Some Garbled => (zeroConfig, Some ErrParse)
  | Some Denied => (zeroConfig, Some ErrPermission)
  | None => (zeroConfig, Some ErrNotExist)
  end.

#[global] Instance host_os : config.OS Host :=
  {| config.Getenv := Getenv;
     config.Stat := Stat;
     config.NotExist := λ e, errors.Is e ErrNotExist;
     config.ReadConfig := ReadConfig |}.

Definition local : config.Config :=
  config.mkConfig "local" "./storage/sso.db"
    (config.mkGRPCCoinfig 8080 (5 * time.Second)) time.Hour.

Definition host0 : Host :=
  {| environ := [ ("CONFIG_PATH", "./config/env.yaml") ];
     files := [ ("./config/local.yaml", Readable local);
                ("./config/env.yaml", Readable local);
                ("./config/secret.yaml", Denied);
                ("./config/bad.yaml", Garbled) ] |}.

End fakeops.

(* ===================================================================== *)
(** ** Proof steps *)
(* ===================================================================== *)

(** Decide a kind test on an error that wraps one of the sentinels. *)
Ltac sentinel_kind Hk :=
  unfold has_kind in Hk; vm_compute in Hk; intuition congruence.

(** Unfold one operation down to the calls it makes. *)
Ltac run :=
  cbv [auth.Login auth.RegisterNewUser auth.IsAdmin jwt.NewToken
       mbind mret Go_bind Go_ret bind ret call call_pure Info Warn
       machine.Error];
  cbn [world trace fst snd].

(** Replace a call by the answer a hypothesis records for it. *)
Ltac answer H := rewrite ?H; cbn [world trace fst snd].

(** An event is not in an explicit list of other events. *)
Ltac absent Hin :=
  apply list_elem_of_In in Hin; cbn in Hin; intuition discriminate.

(* ===================================================================== *)
(** ** Errors: wrapping and kinds *)
(* ===================================================================== *)

Section ErrorFacts.

Lemma same_wrapError msg inner id text :
  errors.same (errors.wrapError msg inner) (errors.New id text) = false.
Proof. reflexivity. Qed.

(** Wrapping with the operation name keeps the chain below it: the
    wrapped error matches exactly the [errors.New] values the inner error
    matches. *)
Lemma Is_Errorf op e id text :
  errors.Is (fmt.Errorf op e) (errors.New id text)
  = errors.Is e (errors.New id text).
Proof. reflexivity. Qed.

Lemma Unwrap_Errorf op e : errors.Unwrap (fmt.Errorf op e) = Some e.
Proof. reflexivity. Qed.

Lemma Is_refl_New id text :
  errors.Is (errors.New id text) (errors.New id text) = true.
Proof. cbn. by rewrite bool_decide_eq_true_2. Qed.

Lemma foreign_spec e :
  foreign e = true ↔
  errors.Is e auth.ErrInvalidCredentials = false ∧
  errors.Is e auth.ErrInvalidAppID = false ∧
  errors.Is e auth.ErrUserExists = false ∧
  errors.Is e auth.ErrUserNotFound = false.
Proof.
  unfold foreign. rewrite !andb_true_iff, !negb_true_iff. tauto.
Qed.

Lemma kind_InvalidCredentials op :
  kind_is (fmt.Errorf op auth.ErrInvalidCredentials) InvalidCredentials.
Proof.
  split; [ reflexivity | ].
  intros [] Hk; try reflexivity; sentinel_kind Hk.
Qed.

Lemma kind_InvalidAppID op :
  kind_is (fmt.Errorf op auth.ErrInvalidAppID) InvalidAppID.
Proof.
  split; [ reflexivity | ].
  intros [] Hk; try reflexivity; sentinel_kind Hk.
Qed.

Lemma kind_UserExists op :
  kind_is (fmt.Errorf op auth.ErrUserExists) UserExists.
Proof.
  split; [ reflexivity | ].
  intros [] Hk; try reflexivity; sentinel_kind Hk.
Qed.

Lemma kind_Internal op e :
  foreign e = true → kind_is (fmt.Errorf op e) Internal.
Proof.
  rewrite foreign_spec. intros (H1 & H2 & H3 & _).
  split; [ exact (conj H1 (conj H2 H3)) | ].
  intros [] Hk; try reflexivity; unfold has_kind in Hk;
    cbn [fmt.Errorf errors.Is errors.same orb] in Hk; congruence.
Qed.

(** The kinds exclude one another only through [kind_is]: an error of
    one kind and no other has a single kind. *)
Lemma kind_is_unique e k1 k2 : kind_is e k1 → kind_is e k2 → k1 = k2.
Proof. intros [H1 _] [_ H2]. by apply H2. Qed.

End ErrorFacts.

(* ===================================================================== *)
(** ** The paths of Login *)
(* ===================================================================== *)

Section LoginPaths.

Context {W : Type} `{Platform W}.
Variable a : auth.Auth W.
Variables (email password : string) (appID : Z).
Variable m : Machine W.

Let op : string := "auth.Login".
Let pw : list Byte.byte := list_byte_of_string password.

Lemma Login_run_not_found user err w1 :
  auth.User (auth.usrProvider a) email (world m) = ((user, Some err), w1) →
  errors.Is err storage.ErrUserNotFound = true →
  auth.Login a email password appID m =
    (("", Some (fmt.Errorf op auth.ErrInvalidCredentials)),
     mkMachine w1
       (trace m ++ [ EvLog LevelInfo "attempting to login user";
                     EvUser email;
                     EvLog LevelWarn "user not found" ])).
Proof.
  intros Hu Hnf. run. answer Hu. answer Hnf.
  by rewrite <- !app_assoc.
Qed.

Lemma Login_run_lookup_error user err w1 :
  auth.User (auth.usrProvider a) email (world m) = ((user, Some err), w1) →
  errors.Is err storage.ErrUserNotFound = false →
  auth.Login a email password appID m =
    (("", Some (fmt.Errorf op err)),
     mkMachine w1
       (trace m ++ [ EvLog LevelInfo "attempting to login user";
                     EvUser email;
                     EvLog LevelError "failed to get user" ])).
Proof.
  intros Hu Hnf. run. answer Hu. answer Hnf.
  by rewrite <- !app_assoc.
Qed.

Lemma Login_run_mismatch user w1 cerr :
  auth.User (auth.usrProvider a) email (world m) = ((user, None), w1) →
  CompareHashAndPassword (models.PassHash user) pw = Some cerr →
  auth.Login a email password appID m =
    (("", Some (fmt.Errorf op auth.ErrInvalidCredentials)),
     mkMachine w1
       (trace m ++ [ EvLog LevelInfo "attempting to login user";
                     EvUser email;
                     EvCompareHashAndPassword (models.PassHash user) pw;
                     EvLog LevelInfo "invalid password" ])).
Proof.
  intros Hu Hc. run. answer Hu. fold pw. answer Hc.
  by rewrite <- !app_assoc.
Qed.

Lemma Login_run_app_error user w1 app err w2 :
  auth.User (auth.usrProvider a) email (world m) = ((user, None), w1) →
  CompareHashAndPassword (models.PassHash user) pw = None →
  auth.App (auth.appProvider a) appID w1 = ((app, Some err), w2) →
  auth.Login a email password appID m =
    (("", Some (fmt.Errorf op err)),
     mkMachine w2
       (trace m ++ [ EvLog LevelInfo "attempting to login user";
                     EvUser email;
                     EvCompareHashAndPassword (models.PassHash user) pw;
                     EvApp appID ])).
Proof.
  intros Hu Hc Ha. run. answer Hu. fold pw. answer Hc. answer Ha.
  by rewrite <- !app_assoc.
Qed.

Lemma Login_run_sign_error user w1 app w2 now w3 s err :
  auth.User (auth.usrProvider a) email (world m) = ((user, None), w1) →
  CompareHashAndPassword (models.PassHash user) pw = None →
  auth.App (auth.appProvider a) appID w1 = ((app, None), w2) →
  Now w2 = (now, w3) →
  SignedString (jwt.build user app (auth.tokenTTL a) now)
    (list_byte_of_string (models.Secret app)) = (s, Some err) →
  auth.Login a email password appID m =
    (("", Some (fmt.Errorf op err)),
     mkMachine w3
       (trace m ++ Login_full_trace a email password appID user app now
                ++ [EvLog LevelError "failed to create token"])).
Proof.
  intros Hu Hc Ha Hn Hs. run. answer Hu. fold pw. answer Hc. answer Ha.
  answer Hn. answer Hs. unfold Login_full_trace.
  by rewrite <- !app_assoc.
Qed.

Lemma Login_run_issued user w1 app w2 now w3 s :
  auth.User (auth.usrProvider a) email (world m) = ((user, None), w1) →
  CompareHashAndPassword (models.PassHash user) pw = None →
  auth.App (auth.appProvider a) appID w1 = ((app, None), w2) →
  Now w2 = (now, w3) →
  SignedString (jwt.build user app (auth.tokenTTL a) now)
    (list_byte_of_string (models.Secret app)) = (s, None) →
  auth.Login a email password appID m =
    ((s, None),
     mkMachine w3
       (trace m ++ Login_full_trace a email password appID user app now)).
Proof.
  intros Hu Hc Ha Hn Hs. run. answer Hu. fold pw. answer Hc. answer Ha.
  answer Hn. answer Hs. unfold Login_full_trace.
  by rewrite <- !app_assoc.
Qed.

End LoginPaths.

(* ===================================================================== *)
(** ** The paths of RegisterNewUser and IsAdmin *)
(* ===================================================================== *)

Section RegisterPaths.

Context {W : Type} `{Platform W}.
Variable a : auth.Auth W.
Variables (email password : string).
Variable m : Machine W.

Let op : string := "auth.RegisterNewUser".
Let pw : list Byte.byte := list_byte_of_string password.

Lemma Register_run_hash_error h err w1 :
  GenerateFromPassword pw bcrypt.DefaultCost (world m) = ((h, Some err), w1) →
  auth.RegisterNewUser a email password m =
    ((0, Some (fmt.Errorf op err)),
     mkMachine w1
       (trace m ++ [ EvLog LevelInfo "registering new user";
                     EvGenerateFromPassword pw bcrypt.DefaultCost;
                     EvLog LevelError "failed to hash password" ])).
Proof.
  intros Hg. run. fold pw. answer Hg. by rewrite <- !app_assoc.
Qed.

Lemma Register_run_exists h w1 id err w2 :
  GenerateFromPassword pw bcrypt.DefaultCost (world m) = ((h, None), w1) →
  auth.SaveUser (auth.usrSaver a) email h w1 = ((id, Some err), w2) →
  errors.Is err storage.ErrUserExists = true →
  auth.RegisterNewUser a email password m =
    ((0, Some (fmt.Errorf op auth.ErrUserExists)),
     mkMachine w2
       (trace m ++ [ EvLog LevelInfo "registering new user";
                     EvGenerateFromPassword pw bcrypt.DefaultCost;
                     EvSaveUser email h;
                     EvLog LevelWarn "user already exists" ])).
Proof.
  intros Hg Hs He. run. fold pw. answer Hg. answer Hs. answer He.
  by rewrite <- !app_assoc.
Qed.

Lemma Register_run_save_error h w1 id err w2 :
  GenerateFromPassword pw bcrypt.DefaultCost (world m) = ((h, None), w1) →
  auth.SaveUser (auth.usrSaver a) email h w1 = ((id, Some err), w2) →
  errors.Is err storage.ErrUserExists = false →
  auth.RegisterNewUser a email password m =
    ((0, Some (fmt.Errorf op err)),
     mkMachine w2
       (trace m ++ [ EvLog LevelInfo "registering new user";
                     EvGenerateFromPassword pw bcrypt.DefaultCost;
                     EvSaveUser email h;
                     EvLog LevelError "failed to save user" ])).
Proof.
  intros Hg Hs He. run. fold pw. answer Hg. answer Hs. answer He.
  by rewrite <- !app_assoc.
Qed.

Lemma Register_run_saved h w1 id w2 :
  GenerateFromPassword pw bcrypt.DefaultCost (world m) = ((h, None), w1) →
  auth.SaveUser (auth.usrSaver a) email h w1 = ((id, None), w2) →
  auth.RegisterNewUser a email password m =
    ((id, None),
     mkMachine w2
       (trace m ++ [ EvLog LevelInfo "registering new user";
                     EvGenerateFromPassword pw bcrypt.DefaultCost;
                     EvSaveUser email h;
                     EvLog LevelInfo "user registered successfully" ])).
Proof.
  intros Hg Hs. run. fold pw. answer Hg. answer Hs.
  by rewrite <- !app_assoc.
Qed.

End RegisterPaths.

Section IsAdminPaths.

Context {W : Type} `{Platform W}.
Variable a : auth.Auth W.
Variable userID : Z.
Variable m : Machine W.

Let op : string := "auth.IsAdmin".

Lemma IsAdmin_run_not_found b err w1 :
  auth.ProviderIsAdmin (auth.usrProvider a) userID (world m)
    = ((b, Some err), w1) →
  errors.Is err storage.ErrUserNotFound = true →
  auth.IsAdmin a userID m =
    ((false, Some (fmt.Errorf op auth.ErrInvalidAppID)),
     mkMachine w1
       (trace m ++ [ EvLog LevelInfo "checking if user is admin";
                     EvIsAdmin userID;
                     EvLog LevelWarn "user not found" ])).
Proof.
  intros Hq Hnf. run. answer Hq. answer Hnf. by rewrite <- !app_assoc.
Qed.

Lemma IsAdmin_run_error b err w1 :
  auth.ProviderIsAdmin (auth.usrProvider a) userID (world m)
    = ((b, Some err), w1) →
  errors.Is err storage.ErrUserNotFound = false →
  auth.IsAdmin a userID m =
    ((false, Some (fmt.Errorf op err)),
     mkMachine w1
       (trace m ++ [ EvLog LevelInfo "checking if user is admin";
                     EvIsAdmin userID ])).
Proof.
  intros Hq Hnf. run. answer Hq. answer Hnf. by rewrite <- !app_assoc.
Qed.

Lemma IsAdmin_run_answer b w1 :
  auth.ProviderIsAdmin (auth.usrProvider a) userID (world m)
    = ((b, None), w1) →
  auth.IsAdmin a userID m =
    ((b, None),
     mkMachine w1
       (trace m ++ [ EvLog LevelInfo "checking if user is admin";
                     EvIsAdmin userID;
                     EvLog LevelInfo "checked if user is admin" ])).
Proof.
  intros Hq. run. answer Hq. by rewrite <- !app_assoc.
Qed.

End IsAdminPaths.

(* ===================================================================== *)
(** ** Expiry arithmetic *)
(* ===================================================================== *)

Section Expiry.

(** For a clock reading with its nanoseconds in range, the expiry is the
    instant plus the duration, in nanoseconds, rounded down to a second. *)
Lemma Unix_Add_floor t d :
  time.wf t →
  time.Unix (time.Add t d) = (time.UnixNano t + d) `div` 1000000000.
Proof.
  unfold time.wf, time.Unix, time.Add, time.UnixNano. intros Hwf.
  pose proof (Z.quot_rem' d 1000000000) as Hd.
  pose proof (Z.rem_bound_abs d 1000000000 ltac:(lia)) as Hr.
  set (q := d `quot` 1000000000) in *.
  set (r := d `rem` 1000000000) in *.
  destruct (Z.leb_spec 1000000000 (time.nsec t + r));
    [ | destruct (Z.ltb_spec (time.nsec t + r) 0) ]; cbn [time.sec].
  - apply Z.div_unique_pos with (r := time.nsec t + r - 1000000000); lia.
  - apply Z.div_unique_pos with (r := time.nsec t + r + 1000000000); lia.
  - apply Z.div_unique_pos with (r := time.nsec t + r); lia.
Qed.

Lemma UnixNano_le t u :
  time.wf t → time.wf u → time.le t u →
  time.UnixNano t <= time.UnixNano u.
Proof. unfold time.wf, time.le, time.UnixNano. lia. Qed.

(** Adding the same duration to a later instant gives no earlier expiry. *)
Lemma Unix_Add_monotone t u d :
  time.wf t → time.wf u → time.le t u →
  time.Unix (time.Add t d) <= time.Unix (time.Add u d).
Proof.
  intros Ht Hu Hle. rewrite !Unix_Add_floor by assumption.
  apply Z.div_le_mono; [ lia | ].
  pose proof (UnixNano_le t u Ht Hu Hle). lia.
Qed.

End Expiry.

(* ===================================================================== *)
(** ** The spec's scenario, run on the stand-in *)
(* ===================================================================== *)

Section Scenario.

Let svc : auth.Auth fake.World := fake.service time.Hour.

Example scenario_register :
  auth.RegisterNewUser svc "a@x.com" "pw123" (fake.start fake.empty)
  = ((1, None),
     mkMachine fake.world0
       [ EvLog LevelInfo "registering new user";
         EvGenerateFromPassword (list_byte_of_string "pw123") 10;
         EvSaveUser "a@x.com" (fake.hash (list_byte_of_string "pw123"));
         EvLog LevelInfo "user registered successfully" ]).
Proof. reflexivity. Qed.

Example scenario_register_again :
  (auth.RegisterNewUser svc "a@x.com" "other" (fake.start fake.world0)).1
  = (0, Some (fmt.Errorf "auth.RegisterNewUser" auth.ErrUserExists)).
Proof. reflexivity. Qed.

Example scenario_login :
  (auth.Login svc "a@x.com" "pw123" 1 (fake.start fake.world0)).1
  = SignedString
      (jwt.build fake.alice (models.mkApp 1 "test-secret") time.Hour
         (time.mkTime 1700000000 750000000))
      (list_byte_of_string "test-secret").
Proof. reflexivity. Qed.

Example scenario_wrong_password :
  (auth.Login svc "a@x.com" "wrong" 1 (fake.start fake.world0)).1
  = ("", Some (fmt.Errorf "auth.Login" auth.ErrInvalidCredentials)).
Proof. reflexivity. Qed.

Example scenario_unknown_app :
  (auth.Login svc "a@x.com" "pw123" 42 (fake.start fake.world0)).1
  = ("", Some (fmt.Errorf "auth.Login"
                 (fmt.Errorf "storage.sqlite.App" storage.ErrAppNotFound))).
Proof. reflexivity. Qed.

Example scenario_not_admin :
  (auth.IsAdmin svc 1 (fake.start fake.world0)).1 = (false, None).
Proof. reflexivity. Qed.

Example scenario_admin_of_nobody :
  (auth.IsAdmin svc 9999 (fake.start fake.world0)).1
  = (false, Some (fmt.Errorf "auth.IsAdmin" auth.ErrInvalidAppID)).
Proof. reflexivity. Qed.

(** A password of 73 bytes is more than the stand-in bcrypt takes. *)
Example scenario_password_too_long :
  (auth.RegisterNewUser svc "b@x.com"
     (string_of_list_byte (List.repeat Byte.x61 73))
     (fake.start fake.world0)).1
  = (0, Some (fmt.Errorf "auth.RegisterNewUser" bcrypt.ErrPasswordTooLong)).
Proof. vm_compute. reflexivity. Qed.

(** The message of a wrapped error, as [%s: %w] formats it. *)
Example scenario_message :
  errors.Error (fmt.Errorf "auth.Login" auth.ErrInvalidCredentials)
  = "auth.Login: invalid credentials".
Proof. reflexivity. Qed.

(** Expiry rounds down, also for a negative duration: 10.2 s less 1.5 s
    is 8.7 s, second 8. *)
Example scenario_negative_duration :
  time.Unix (time.Add (time.mkTime 10 200000000) (-1500000000)) = 8.
Proof. reflexivity. Qed.

End Scenario.

(** A result has at most one kind. *)
Lemma fails_with_unique {A : Type} (r : result A) (k1 k2 : Kind) :
  fails_with r k1 → fails_with r k2 → k1 = k2.
Proof.
  intros (e1 & He1 & Hk1) (e2 & He2 & Hk2).
  rewrite He1 in He2. injection He2 as <-.
  exact (kind_is_unique _ _ _ Hk1 Hk2).
Qed.

Lemma fails_with_Internal {A : Type} (v : A) (op : string) (e : error) :
  foreign e = true → fails_with (v, Some (fmt.Errorf op e)) Internal.
Proof.
  intros Hf. eexists. split; [ reflexivity | by apply kind_Internal ].
Qed.

(* ===================================================================== *)
(** ** Login: the error-translation contract *)
(* ===================================================================== *)

(** C1.  When the user reader reports "not found" for the email, Login
    fails with an error of kind InvalidCredentials and of no other kind,
    and neither the storage's nor the package's own user-not-found
    sentinel is on the chain of the returned error. *)
Theorem Login_unknown_email_is_InvalidCredentials
    {W : Type} {PF : Platform W} (a : auth.Auth W)
    (email password : string) (appID : Z) (m : Machine W)
    (user : models.User) (err : error) (w1 : W) :
  auth.User (auth.usrProvider a) email (world m) = ((user, Some err), w1) →
  errors.Is err storage.ErrUserNotFound = true →
  fails_with (auth.Login a email password appID m).1 InvalidCredentials ∧
  ∀ e, (auth.Login a email password appID m).1.2 = Some e →
       errors.Is e storage.ErrUserNotFound = false ∧
       errors.Is e auth.ErrUserNotFound = false.
Proof.
  intros Hu Hnf.
  rewrite (Login_run_not_found a email password appID m user err w1 Hu Hnf).
  cbn [fst snd]. split.
  - eexists. split; [ reflexivity | apply kind_InvalidCredentials ].
  - intros e [= <-]. by vm_compute.
Qed.

Lemma Login_unknown_email_is_InvalidCredentials_witness :
  auth.User (auth.usrProvider (fake.service time.Hour)) "nobody@x.com"
    (world (fake.start fake.world0))
  = ((models.zeroUser,
      Some (fmt.Errorf "storage.sqlite.User" storage.ErrUserNotFound)),
     fake.world0) ∧
  errors.Is (fmt.Errorf "storage.sqlite.User" storage.ErrUserNotFound)
    storage.ErrUserNotFound = true ∧
  fails_with
    (auth.Login (fake.service time.Hour) "nobody@x.com" "pw123" 1
       (fake.start fake.world0)).1
    InvalidCredentials.
Proof.
  split; [ reflexivity | split; [ reflexivity | ] ].
  apply (Login_unknown_email_is_InvalidCredentials
           (fake.service time.Hour) "nobody@x.com" "pw123" 1
           (fake.start fake.world0) models.zeroUser
           (fmt.Errorf "storage.sqlite.User" storage.ErrUserNotFound)
           fake.world0);
    reflexivity.
Defined.

(** C2.  When the email is registered and the password does not verify
    against the stored hash, Login fails with an error of kind
    InvalidCredentials and of no other kind; and a Login for an email the
    reader does not find, on any service and machine, returns the very
    same pair of empty token and error. *)
Theorem Login_wrong_password_is_InvalidCredentials
    {W : Type} {PF : Platform W} (a : auth.Auth W)
    (email password : string) (appID : Z) (m : Machine W)
    (user : models.User) (w1 : W) (cerr : error) :
  auth.User (auth.usrProvider a) email (world m) = ((user, None), w1) →
  CompareHashAndPassword (models.PassHash user)
    (list_byte_of_string password) = Some cerr →
  fails_with (auth.Login a email password appID m).1 InvalidCredentials ∧
  ∀ (a' : auth.Auth W) (email' password' : string) (appID' : Z)
    (m' : Machine W) (user' : models.User) (err' : error) (w1' : W),
    auth.User (auth.usrProvider a') email' (world m')
      = ((user', Some err'), w1') →
    errors.Is err' storage.ErrUserNotFound = true →
    (auth.Login a' email' password' appID' m').1
      = (auth.Login a email password appID m).1.
Proof.
  intros Hu Hc.
  rewrite (Login_run_mismatch a email password appID m user w1 cerr Hu Hc).
  cbn [fst snd]. split.
  - eexists. split; [ reflexivity | apply kind_InvalidCredentials ].
  - intros a' email' password' appID' m' user' err' w1' Hu' Hnf'.
    by rewrite (Login_run_not_found a' email' password' appID' m'
                  user' err' w1' Hu' Hnf').
Qed.

Lemma Login_wrong_password_is_InvalidCredentials_witness :
  auth.User (auth.usrProvider (fake.service time.Hour)) "a@x.com"
    (world (fake.start fake.world0))
  = ((fake.alice, None), fake.world0) ∧
  CompareHashAndPassword (models.PassHash fake.alice)
    (list_byte_of_string "wrong")
  = Some bcrypt.ErrMismatchedHashAndPassword ∧
  fails_with
    (auth.Login (fake.service time.Hour) "a@x.com" "wrong" 1
       (fake.start fake.world0)).1
    InvalidCredentials ∧
  (auth.Login (fake.service time.Hour) "nobody@x.com" "wrong" 1
     (fake.start fake.world0)).1
  = (auth.Login (fake.service time.Hour) "a@x.com" "wrong" 1
       (fake.start fake.world0)).1.
Proof.
  split; [ reflexivity | split; [ reflexivity | ] ].
  destruct (Login_wrong_password_is_InvalidCredentials
              (fake.service time.Hour) "a@x.com" "wrong" 1
              (fake.start fake.world0) fake.alice fake.world0
              bcrypt.ErrMismatchedHashAndPassword
              ltac:(reflexivity) ltac:(reflexivity)) as [Hk Hsame].
  split; [ exact Hk | ].
  apply (Hsame (fake.service time.Hour) "nobody@x.com" "wrong" 1
           (fake.start fake.world0) models.zeroUser
           (fmt.Errorf "storage.sqlite.User" storage.ErrUserNotFound)
           fake.world0);
    reflexivity.
Defined.

(** C3, as the code has it.  When the user is found and the password
    verifies but the application reader fails, with "not found" or with
    anything else, and the reader's error has none of package auth's
    sentinels on its chain, Login returns that error wrapped under the
    operation name: an error of kind Internal and of no other kind, so not
    InvalidCredentials.  The error is not opaque: [errors.Unwrap] returns
    the reader's error, and [errors.Is] matches the sentinels it
    matches. *)
Theorem Login_app_failure_is_Internal
    {W : Type} {PF : Platform W} (a : auth.Auth W)
    (email password : string) (appID : Z) (m : Machine W)
    (user : models.User) (w1 : W) (app : models.App) (err : error)
    (w2 : W) :
  auth.User (auth.usrProvider a) email (world m) = ((user, None), w1) →
  CompareHashAndPassword (models.PassHash user)
    (list_byte_of_string password) = None →
  auth.App (auth.appProvider a) appID w1 = ((app, Some err), w2) →
  foreign err = true →
  (auth.Login a email password appID m).1
    = ("", Some (fmt.Errorf "auth.Login" err)) ∧
  fails_with (auth.Login a email password appID m).1 Internal ∧
  ¬ fails_with (auth.Login a email password appID m).1 InvalidCredentials ∧
  errors.Unwrap (fmt.Errorf "auth.Login" err) = Some err ∧
  ∀ id text,
    errors.Is (fmt.Errorf "auth.Login" err) (errors.New id text)
    = errors.Is err (errors.New id text).
Proof.
  intros Hu Hc Ha Hf.
  rewrite (Login_run_app_error a email password appID m user w1 app err w2
             Hu Hc Ha).
  cbn [fst snd]. split; [ reflexivity | ].
  pose proof (fails_with_Internal "" "auth.Login" err Hf) as Hint.
  split; [ exact Hint | ].
  split.
  { intros Hcred. discriminate (fails_with_unique _ _ _ Hint Hcred). }
  split; [ reflexivity | ].
  intros id text. apply Is_Errorf.
Qed.

Lemma Login_app_failure_is_Internal_witness :
  auth.User (auth.usrProvider (fake.service time.Hour)) "a@x.com"
    (world (fake.start fake.world0))
  = ((fake.alice, None), fake.world0) ∧
  CompareHashAndPassword (models.PassHash fake.alice)
    (list_byte_of_string "pw123") = None ∧
  auth.App (auth.appProvider (fake.service time.Hour)) 42 fake.world0
  = ((models.zeroApp,
      Some (fmt.Errorf "storage.sqlite.App" storage.ErrAppNotFound)),
     fake.world0) ∧
  foreign (fmt.Errorf "storage.sqlite.App" storage.ErrAppNotFound) = true ∧
  fails_with
    (auth.Login (fake.service time.Hour) "a@x.com" "pw123" 42
       (fake.start fake.world0)).1
    Internal.
Proof.
  repeat (split; [ reflexivity | ]).
  apply (Login_app_failure_is_Internal (PF := fake.platform)
           (fake.service time.Hour) "a@x.com" "pw123" 42
           (fake.start fake.world0) fake.alice fake.world0 models.zeroApp
           (fmt.Errorf "storage.sqlite.App" storage.ErrAppNotFound)
           fake.world0
           ltac:(reflexivity) ltac:(reflexivity) ltac:(reflexivity)
           ltac:(reflexivity)).
Defined.

(** Against C3 as stated.  An application reader may fail with package
    auth's own sentinel: the user is found, the password verifies, the
    application lookup fails, and Login's error is of kind
    InvalidCredentials, not Internal.  And with the stand-in storage, the
    error Login returns for an unknown application is not opaque: the
    caller unwraps the storage's error and matches its sentinel. *)
Lemma Login_app_failure_may_be_InvalidCredentials :
  auth.User (auth.usrProvider (hostile.service time.Hour)) "a@x.com"
    (world (fake.start fake.world0))
  = ((fake.alice, None), fake.world0) ∧
  CompareHashAndPassword (models.PassHash fake.alice)
    (list_byte_of_string "pw123") = None ∧
  auth.App (auth.appProvider (hostile.service time.Hour)) 1 fake.world0
  = ((models.zeroApp, Some auth.ErrInvalidCredentials), fake.world0) ∧
  fails_with
    (auth.Login (hostile.service time.Hour) "a@x.com" "pw123" 1
       (fake.start fake.world0)).1
    InvalidCredentials ∧
  (∃ e,
     (auth.Login (fake.service time.Hour) "a@x.com" "pw123" 42
        (fake.start fake.world0)).1.2 = Some e ∧
     errors.Unwrap e
     = Some (fmt.Errorf "storage.sqlite.App" storage.ErrAppNotFound) ∧
     errors.Is e storage.ErrAppNotFound = true).
Proof.
  split; [ reflexivity | ]. split; [ reflexivity | ].
  split; [ reflexivity | ]. split.
  - eexists. split; [ reflexivity | apply kind_InvalidCredentials ].
  - eexists. split; [ reflexivity | ]. split; reflexivity.
Qed.

(* ===================================================================== *)
(** ** IsAdmin and RegisterNewUser: the error-translation contract *)
(* ===================================================================== *)

(** C4, as the code has it.  When the admin-status reader reports "user
    not found", IsAdmin fails with an error of kind InvalidAppID and of no
    other kind, with no user-not-found sentinel on its chain.  Any other
    failure of the reader comes back wrapped under the operation name, and
    is not opaque: [errors.Unwrap] returns the reader's error and
    [errors.Is] matches the sentinels it matches.  When the reader's error
    has none of package auth's sentinels on its chain, the returned error
    is of kind Internal and of no other kind. *)
Theorem IsAdmin_missing_user_is_InvalidAppID
    {W : Type} {PF : Platform W} (a : auth.Auth W) (userID : Z)
    (m : Machine W) (b : bool) (err : error) (w1 : W) :
  auth.ProviderIsAdmin (auth.usrProvider a) userID (world m)
    = ((b, Some err), w1) →
  (errors.Is err storage.ErrUserNotFound = true →
   fails_with (auth.IsAdmin a userID m).1 InvalidAppID ∧
   ∀ e, (auth.IsAdmin a userID m).1.2 = Some e →
        errors.Is e storage.ErrUserNotFound = false ∧
        errors.Is e auth.ErrUserNotFound = false) ∧
  (errors.Is err storage.ErrUserNotFound = false →
   (auth.IsAdmin a userID m).1
     = (false, Some (fmt.Errorf "auth.IsAdmin" err)) ∧
   errors.Unwrap (fmt.Errorf "auth.IsAdmin" err) = Some err ∧
   (∀ id text,
      errors.Is (fmt.Errorf "auth.IsAdmin" err) (errors.New id text)
      = errors.Is err (errors.New id text)) ∧
   (foreign err = true →
    fails_with (auth.IsAdmin a userID m).1 Internal)).
Proof.
  intros Hq. split.
  - intros Hnf.
    rewrite (IsAdmin_run_not_found a userID m b err w1 Hq Hnf).
    cbn [fst snd]. split.
    + eexists. split; [ reflexivity | apply kind_InvalidAppID ].
    + intros e [= <-]. by vm_compute.
  - intros Hnf.
    rewrite (IsAdmin_run_error a userID m b err w1 Hq Hnf).
    cbn [fst snd]. split; [ reflexivity | ]. split; [ reflexivity | ].
    split; [ intros id text; apply Is_Errorf | ].
    intros Hf. by apply fails_with_Internal.
Qed.

Lemma IsAdmin_missing_user_is_InvalidAppID_witness :
  (auth.ProviderIsAdmin (auth.usrProvider (fake.service time.Hour)) 9999
     (world (fake.start fake.world0))
   = ((false,
       Some (fmt.Errorf "storage.sqlite.IsAdmin" storage.ErrUserNotFound)),
      fake.world0) ∧
   fails_with
     (auth.IsAdmin (fake.service time.Hour) 9999
        (fake.start fake.world0)).1
     InvalidAppID) ∧
  (auth.ProviderIsAdmin (auth.usrProvider (fake.service time.Hour)) 1
     (world (fake.start fake.broken))
   = ((false, Some (fmt.Errorf "storage.sqlite.IsAdmin" fake.ErrDiskIO)),
      fake.broken) ∧
   foreign (fmt.Errorf "storage.sqlite.IsAdmin" fake.ErrDiskIO) = true ∧
   fails_with
     (auth.IsAdmin (fake.service time.Hour) 1 (fake.start fake.broken)).1
     Internal).
Proof.
  split.
  - split; [ reflexivity | ].
    apply (IsAdmin_missing_user_is_InvalidAppID (PF := fake.platform)
             (fake.service time.Hour) 9999 (fake.start fake.world0) false
             (fmt.Errorf "storage.sqlite.IsAdmin" storage.ErrUserNotFound)
             fake.world0 ltac:(reflexivity));
      reflexivity.
  - split; [ reflexivity | split; [ reflexivity | ] ].
    apply (IsAdmin_missing_user_is_InvalidAppID (PF := fake.platform)
             (fake.service time.Hour) 1 (fake.start fake.broken) false
             (fmt.Errorf "storage.sqlite.IsAdmin" fake.ErrDiskIO)
             fake.broken ltac:(reflexivity));
      reflexivity.
Defined.

(** Against C4 as stated.  An admin-status reader may fail with package
    auth's own sentinel: its error is not "user not found", and IsAdmin's
    error is of kind InvalidAppID, not Internal.  And on a storage that
    fails every query, the error IsAdmin returns is not opaque: the caller
    unwraps the storage's error and matches its sentinel. *)
Lemma IsAdmin_other_failure_may_be_InvalidAppID :
  auth.ProviderIsAdmin (auth.usrProvider (hostile.service time.Hour)) 1
    (world (fake.start fake.world0))
  = ((false, Some auth.ErrInvalidAppID), fake.world0) ∧
  errors.Is auth.ErrInvalidAppID storage.ErrUserNotFound = false ∧
  fails_with
    (auth.IsAdmin (hostile.service time.Hour) 1 (fake.start fake.world0)).1
    InvalidAppID ∧
  (∃ e,
     (auth.IsAdmin (fake.service time.Hour) 1
        (fake.start fake.broken)).1.2 = Some e ∧
     errors.Unwrap e
     = Some (fmt.Errorf "storage.sqlite.IsAdmin" fake.ErrDiskIO) ∧
     errors.Is e fake.ErrDiskIO = true).
Proof.
  split; [ reflexivity | ]. split; [ reflexivity | ]. split.
  - eexists. split; [ reflexivity | apply kind_InvalidAppID ].
  - eexists. split; [ reflexivity | ]. split; reflexivity.
Qed.

(** C5, as the code has it.  With hashing and writer errors that have
    none of package auth's sentinels on their chains: RegisterNewUser
    fails with kind UserExists exactly when the password was hashed and
    the writer's error matches the storage's uniqueness conflict; a
    hashing failure, and a writer failure that is no conflict, come back
    wrapped under the operation name, of kind Internal and not of kind
    UserExists.  They are not opaque: [errors.Unwrap] returns the hashing
    or writer error, and [errors.Is] matches the sentinels it matches. *)
Theorem Register_UserExists_iff_conflict
    {W : Type} {PF : Platform W} (a : auth.Auth W)
    (email password : string) (m : Machine W)
    (h : list Byte.byte) (herr : option error) (w1 : W)
    (id : Z) (serr : option error) (w2 : W) :
  GenerateFromPassword (list_byte_of_string password) bcrypt.DefaultCost
    (world m) = ((h, herr), w1) →
  auth.SaveUser (auth.usrSaver a) email h w1 = ((id, serr), w2) →
  (∀ e, herr = Some e → foreign e = true) →
  (∀ e, serr = Some e → foreign e = true) →
  (fails_with (auth.RegisterNewUser a email password m).1 UserExists ↔
   herr = None ∧
   ∃ e, serr = Some e ∧ errors.Is e storage.ErrUserExists = true) ∧
  (∀ e, herr = Some e →
     (auth.RegisterNewUser a email password m).1
       = (0, Some (fmt.Errorf "auth.RegisterNewUser" e)) ∧
     fails_with (auth.RegisterNewUser a email password m).1 Internal ∧
     ¬ fails_with (auth.RegisterNewUser a email password m).1 UserExists) ∧
  (herr = None →
   ∀ e, serr = Some e → errors.Is e storage.ErrUserExists = false →
     (auth.RegisterNewUser a email password m).1
       = (0, Some (fmt.Errorf "auth.RegisterNewUser" e)) ∧
     fails_with (auth.RegisterNewUser a email password m).1 Internal ∧
     ¬ fails_with (auth.RegisterNewUser a email password m).1 UserExists) ∧
  (∀ e,
     errors.Unwrap (fmt.Errorf "auth.RegisterNewUser" e) = Some e ∧
     ∀ id text,
       errors.Is (fmt.Errorf "auth.RegisterNewUser" e) (errors.New id text)
       = errors.Is e (errors.New id text)).
Proof.
  intros Hg Hs Hfh Hfs.
  assert (∀ (r : result Z),
            fails_with r Internal → ¬ fails_with r UserExists) as Hexcl.
  { intros r Hi Hu. discriminate (fails_with_unique r _ _ Hi Hu). }
  assert (∀ e,
            errors.Unwrap (fmt.Errorf "auth.RegisterNewUser" e) = Some e ∧
            ∀ id text,
              errors.Is (fmt.Errorf "auth.RegisterNewUser" e)
                (errors.New id text)
              = errors.Is e (errors.New id text)) as Hopen.
  { intros e. split; [ reflexivity | intros; apply Is_Errorf ]. }
  destruct herr as [eh | ].
  { (* the password could not be hashed *)
    rewrite (Register_run_hash_error a email password m h eh w1 Hg).
    cbn [fst snd].
    pose proof (fails_with_Internal 0 "auth.RegisterNewUser" eh
                  (Hfh eh eq_refl)) as Hi.
    split; [ | split; [ | split ] ]; [ | | | exact Hopen ].
    - split; [ intros Hu; destruct (Hexcl _ Hi Hu) | intros [[=] _] ].
    - intros e [= <-]. auto.
    - intros [=]. }
  destruct serr as [es | ].
  2:{ (* the user was saved *)
    rewrite (Register_run_saved a email password m h w1 id w2 Hg Hs).
    cbn [fst snd]. split; [ | split; [ | split ] ]; [ | | | exact Hopen ].
    - split; [ intros (e & [=] & _) | intros (_ & e & [=] & _) ].
    - intros e [=].
    - intros _ e [=]. }
  destruct (errors.Is es storage.ErrUserExists) eqn:Hex.
  - (* the writer reports the conflict *)
    rewrite (Register_run_exists a email password m h w1 id es w2 Hg Hs Hex).
    cbn [fst snd]. split; [ | split; [ | split ] ]; [ | | | exact Hopen ].
    + split; [ eauto | intros _ ].
      eexists. split; [ reflexivity | apply kind_UserExists ].
    + intros e [=].
    + intros _ e [= <-]. congruence.
  - (* the writer fails otherwise *)
    rewrite (Register_run_save_error a email password m h w1 id es w2
               Hg Hs Hex).
    cbn [fst snd].
    pose proof (fails_with_Internal 0 "auth.RegisterNewUser" es
                  (Hfs es eq_refl)) as Hi.
    split; [ | split; [ | split ] ]; [ | | | exact Hopen ].
    + split; [ intros Hu; destruct (Hexcl _ Hi Hu) | ].
      intros (_ & e & [= <-] & He). congruence.
    + intros e [=].
    + intros _ e [= <-] _. auto.
Qed.

Lemma Register_UserExists_iff_conflict_witness :
  GenerateFromPassword (list_byte_of_string "pw123") bcrypt.DefaultCost
    (world (fake.start fake.world0))
  = ((fake.hash (list_byte_of_string "pw123"), None), fake.world0) ∧
  auth.SaveUser (auth.usrSaver (fake.service time.Hour)) "a@x.com"
    (fake.hash (list_byte_of_string "pw123")) fake.world0
  = ((0, Some (fmt.Errorf "storage.sqlite.SaveUser" storage.ErrUserExists)),
     fake.world0) ∧
  foreign (fmt.Errorf "storage.sqlite.SaveUser" storage.ErrUserExists)
    = true ∧
  fails_with
    (auth.RegisterNewUser (fake.service time.Hour) "a@x.com" "pw123"
       (fake.start fake.world0)).1
    UserExists.
Proof.
  repeat (split; [ reflexivity | ]).
  apply (Register_UserExists_iff_conflict (PF := fake.platform)
           (fake.service time.Hour) "a@x.com" "pw123"
           (fake.start fake.world0)
           (fake.hash (list_byte_of_string "pw123")) None fake.world0
           0 (Some (fmt.Errorf "storage.sqlite.SaveUser"
                      storage.ErrUserExists))
           fake.world0
           ltac:(reflexivity) ltac:(reflexivity)
           ltac:(intros e; discriminate)
           ltac:(intros e [= <-]; reflexivity)).
  split; [ reflexivity | ].
  eexists. split; reflexivity.
Defined.

(** Against C5 as stated.  A writer may fail with package auth's own
    sentinel: its error does not match the storage's uniqueness conflict,
    and RegisterNewUser's error is of kind UserExists all the same.  And
    on a storage that fails every query, the error RegisterNewUser returns
    is not opaque: the caller unwraps the storage's error and matches its
    sentinel. *)
Lemma Register_other_failure_may_be_UserExists :
  GenerateFromPassword (list_byte_of_string "pw123") bcrypt.DefaultCost
    (world (fake.start fake.empty))
  = ((fake.hash (list_byte_of_string "pw123"), None), fake.empty) ∧
  auth.SaveUser (auth.usrSaver (hostile.service time.Hour)) "new@x.com"
    (fake.hash (list_byte_of_string "pw123")) fake.empty
  = ((0, Some auth.ErrUserExists), fake.empty) ∧
  errors.Is auth.ErrUserExists storage.ErrUserExists = false ∧
  fails_with
    (auth.RegisterNewUser (hostile.service time.Hour) "new@x.com" "pw123"
       (fake.start fake.empty)).1
    UserExists ∧
  (∃ e,
     (auth.RegisterNewUser (fake.service time.Hour) "new@x.com" "pw123"
        (fake.start fake.broken)).1.2 = Some e ∧
     errors.Unwrap e
     = Some (fmt.Errorf "storage.sqlite.SaveUser" fake.ErrDiskIO) ∧
     errors.Is e fake.ErrDiskIO = true).
Proof.
  split; [ reflexivity | ]. split; [ reflexivity | ].
  split; [ reflexivity | ]. split.
  - eexists. split; [ reflexivity | apply kind_UserExists ].
  - eexists. split; [ reflexivity | ]. split; reflexivity.
Qed.

(* ===================================================================== *)
(** ** Token issuance *)
(* ===================================================================== *)

Section Build.

Variables (user : models.User) (app : models.App).
Variables (duration : time.Duration) (now : time.Time).

Lemma build_Method :
  jwtv5.Method (jwt.build user app duration now) = jwtv5.SigningMethodHS256.
Proof. reflexivity. Qed.

Lemma build_alg :
  jwtv5.Header (jwt.build user app duration now) !! "alg" = Some "HS256".
Proof. cbn. by rewrite lookup_insert_eq. Qed.

Lemma build_uid :
  jwtv5.Claims (jwt.build user app duration now) !! "uid"
  = Some (jwtv5.Int64 (models.ID user)).
Proof.
  cbn. rewrite !lookup_insert_ne by done. by rewrite lookup_insert_eq.
Qed.

Lemma build_app_id :
  jwtv5.Claims (jwt.build user app duration now) !! "app_id"
  = Some (jwtv5.Int (models.AppID app)).
Proof.
  cbn. rewrite !lookup_insert_ne by done. by rewrite lookup_insert_eq.
Qed.

Lemma build_exp :
  jwtv5.Claims (jwt.build user app duration now) !! "exp"
  = Some (jwtv5.Int64 (time.Unix (time.Add now duration))).
Proof.
  cbn. rewrite !lookup_insert_ne by done. by rewrite lookup_insert_eq.
Qed.

Lemma build_email :
  jwtv5.Claims (jwt.build user app duration now) !! "email"
  = Some (jwtv5.Str (models.Email user)).
Proof. cbn. by rewrite lookup_insert_eq. Qed.

(** The keys of the claims map are the four assigned, and no other. *)
Lemma build_dom :
  dom (jwtv5.Claims (jwt.build user app duration now))
  = ({[ "uid"; "app_id"; "exp"; "email" ]} : gset string).
Proof.
  cbn. rewrite !dom_insert_L, dom_empty_L. set_solver.
Qed.

Lemma build_size :
  size (jwtv5.Claims (jwt.build user app duration now)) = 4%nat.
Proof.
  cbn.
  rewrite !map_size_insert_None, map_size_empty; [ reflexivity | .. ];
    by rewrite ?lookup_insert_ne, ?lookup_empty by done.
Qed.

Lemma exp_of_build :
  exp_of (jwt.build user app duration now)
  = Some (time.Unix (time.Add now duration)).
Proof. unfold exp_of. by rewrite build_exp. Qed.

End Build.

Section LoginSuccess.

Context {W : Type} {PF : Platform W}.
Variable a : auth.Auth W.
Variables (email password : string) (appID : Z).
Variable m : Machine W.

(** A Login that returns no error went through every step: the user was
    found, the password verified, the application was found and the
    signer returned the token. *)
Lemma Login_success_inv user uerr app aerr now :
  Login_reads a email appID m user uerr app aerr now →
  (auth.Login a email password appID m).1.2 = None →
  uerr = None ∧
  CompareHashAndPassword (models.PassHash user)
    (list_byte_of_string password) = None ∧
  aerr = None ∧
  ∃ s,
    SignedString (jwt.build user app (auth.tokenTTL a) now)
      (list_byte_of_string (models.Secret app)) = (s, None) ∧
    (auth.Login a email password appID m).1 = (s, None) ∧
    trace (auth.Login a email password appID m).2
    = trace m ++ Login_full_trace a email password appID user app now.
Proof.
  intros (w1 & w2 & w3 & Hu & Ha & Hn) Hok.
  destruct uerr as [eu | ].
  { destruct (errors.Is eu storage.ErrUserNotFound) eqn:Hnf.
    - rewrite (Login_run_not_found a email password appID m _ _ _ Hu Hnf)
        in Hok. discriminate Hok.
    - rewrite (Login_run_lookup_error a email password appID m _ _ _ Hu Hnf)
        in Hok. discriminate Hok. }
  destruct (CompareHashAndPassword (models.PassHash user)
              (list_byte_of_string password)) as [ec | ] eqn:Hc.
  { rewrite (Login_run_mismatch a email password appID m _ _ _ Hu Hc)
      in Hok. discriminate Hok. }
  destruct aerr as [ea | ].
  { rewrite (Login_run_app_error a email password appID m _ _ _ _ _
               Hu Hc Ha) in Hok. discriminate Hok. }
  destruct (SignedString (jwt.build user app (auth.tokenTTL a) now)
              (list_byte_of_string (models.Secret app)))
    as [s [es | ]] eqn:Hs.
  { rewrite (Login_run_sign_error a email password appID m _ _ _ _ _ _ _ _
               Hu Hc Ha Hn Hs) in Hok. discriminate Hok. }
  repeat (split; [ reflexivity | ]). exists s.
  rewrite (Login_run_issued a email password appID m _ _ _ _ _ _ _
             Hu Hc Ha Hn Hs).
  by cbn [fst snd trace].
Qed.

End LoginSuccess.

(** C6.  A Login that succeeds returns what the signer gives for a token
    with method HS256, keyed with the bytes of the resolved application's
    secret, whose claims map holds exactly four entries: [uid], the user's
    ID as an int64; [app_id], the application's ID as an int; [exp], the
    Unix seconds of the clock reading plus the configured TTL, as an
    int64; and [email], the user's email as a string. *)
Theorem Login_token_is_HS256_with_four_claims
    {W : Type} {PF : Platform W} (a : auth.Auth W)
    (email password : string) (appID : Z) (m : Machine W)
    (user : models.User) (uerr : option error)
    (app : models.App) (aerr : option error) (now : time.Time) :
  Login_reads a email appID m user uerr app aerr now →
  time.wf now →
  (auth.Login a email password appID m).1.2 = None →
  let tok := jwt.build user app (auth.tokenTTL a) now in
  let key := list_byte_of_string (models.Secret app) in
  (auth.Login a email password appID m).1 = SignedString tok key ∧
  signings (trace (auth.Login a email password appID m).2)
    = signings (trace m) ++ [EvSignedString tok key] ∧
  jwtv5.Method tok = jwtv5.SigningMethodHS256 ∧
  jwtv5.Header tok !! "alg" = Some "HS256" ∧
  jwtv5.Claims tok !! "uid" = Some (jwtv5.Int64 (models.ID user)) ∧
  jwtv5.Claims tok !! "app_id" = Some (jwtv5.Int (models.AppID app)) ∧
  jwtv5.Claims tok !! "exp"
    = Some (jwtv5.Int64
              ((time.UnixNano now + auth.tokenTTL a) `div` 1000000000)) ∧
  jwtv5.Claims tok !! "email" = Some (jwtv5.Str (models.Email user)) ∧
  dom (jwtv5.Claims tok)
    = ({[ "uid"; "app_id"; "exp"; "email" ]} : gset string) ∧
  size (jwtv5.Claims tok) = 4%nat.
Proof.
  intros Hreads Hwf Hok tok key.
  destruct (Login_success_inv a email password appID m
              user uerr app aerr now Hreads Hok)
    as (_ & _ & _ & s & Hs & Hr & Htr).
  subst tok key. split; [ by rewrite Hr, Hs | ].
  split.
  { rewrite Htr. unfold signings. by rewrite List.filter_app. }
  split; [ apply build_Method | ].
  split; [ apply build_alg | ].
  split; [ apply build_uid | ].
  split; [ apply build_app_id | ].
  split; [ by rewrite build_exp, Unix_Add_floor | ].
  split; [ apply build_email | ].
  split; [ apply build_dom | apply build_size ].
Qed.

Lemma Login_token_is_HS256_with_four_claims_witness :
  Login_reads (fake.service time.Hour) "a@x.com" 1 (fake.start fake.world0)
    fake.alice None (models.mkApp 1 "test-secret") None
    (time.mkTime 1700000000 750000000) ∧
  time.wf (time.mkTime 1700000000 750000000) ∧
  (auth.Login (fake.service time.Hour) "a@x.com" "pw123" 1
     (fake.start fake.world0)).1.2 = None ∧
  exp_of (jwt.build fake.alice (models.mkApp 1 "test-secret") time.Hour
            (time.mkTime 1700000000 750000000))
  = Some 1700003600.
Proof.
  assert (Login_reads (fake.service time.Hour) "a@x.com" 1
            (fake.start fake.world0) fake.alice None
            (models.mkApp 1 "test-secret") None
            (time.mkTime 1700000000 750000000)) as Hreads.
  { eexists _, _, _. repeat split; reflexivity. }
  assert (time.wf (time.mkTime 1700000000 750000000)) as Hwf.
  { unfold time.wf. cbn. lia. }
  repeat (split; [ first [ exact Hreads | exact Hwf | reflexivity ] | ]).
  pose proof (Login_token_is_HS256_with_four_claims (PF := fake.platform)
                (fake.service time.Hour) "a@x.com" "pw123" 1
                (fake.start fake.world0) fake.alice None
                (models.mkApp 1 "test-secret") None
                (time.mkTime 1700000000 750000000)
                Hreads Hwf ltac:(reflexivity))
    as (_ & _ & _ & _ & _ & _ & Hexp & _).
  cbn [auth.tokenTTL fake.service] in Hexp.
  unfold exp_of. rewrite Hexp. reflexivity.
Defined.

(* ===================================================================== *)
(** ** Which errors leave the core *)
(* ===================================================================== *)


Section Kinds.






End Kinds.



(* ===================================================================== *)
(** ** The order of Login's steps *)
(* ===================================================================== *)

(** C8.  The calls a Login makes, log lines apart, are a beginning of one
    fixed sequence: the user reader, the password comparison, the
    application reader, the clock and the signer.  The run stops at the
    first step that fails, and then returns an error; so the application
    reader is not called when the user lookup or the comparison failed,
    the signer is called only when all three succeeded, and a Login that
    returns no error returns the signer's token. *)
Theorem Login_steps_in_order
    {W : Type} {PF : Platform W} (a : auth.Auth W)
    (email password : string) (appID : Z) (m : Machine W)
    (user : models.User) (uerr : option error)
    (app : models.App) (aerr : option error) (now : time.Time) :
  Login_reads a email appID m user uerr app aerr now →
  let pw := list_byte_of_string password in
  let cerr := CompareHashAndPassword (models.PassHash user) pw in
  let tok := jwt.build user app (auth.tokenTTL a) now in
  let key := list_byte_of_string (models.Secret app) in
  let r := (auth.Login a email password appID m).1 in
  ∃ suffix,
    trace (auth.Login a email password appID m).2 = trace m ++ suffix ∧
    calls suffix =
      match uerr, cerr, aerr with
      | Some _, _, _ => [ EvUser email ]
      | None, Some _, _ =>
          [ EvUser email;
            EvCompareHashAndPassword (models.PassHash user) pw ]
      | None, None, Some _ =>
          [ EvUser email;
            EvCompareHashAndPassword (models.PassHash user) pw;
            EvApp appID ]
      | None, None, None =>
          [ EvUser email;
            EvCompareHashAndPassword (models.PassHash user) pw;
            EvApp appID; EvNow; EvSignedString tok key ]
      end ∧
    (is_Some uerr ∨ is_Some cerr ∨ is_Some aerr → is_Some r.2) ∧
    (is_Some uerr ∨ is_Some cerr → ∀ id, EvApp id ∉ suffix) ∧
    ((∃ t k, EvSignedString t k ∈ suffix) →
     uerr = None ∧ cerr = None ∧ aerr = None) ∧
    (r.2 = None →
     uerr = None ∧ cerr = None ∧ aerr = None ∧ r = SignedString tok key).
Proof.
  intros (w1 & w2 & w3 & Hu & Ha & Hn) pw cerr tok key r.
  subst r. destruct uerr as [eu | ].
  { destruct (errors.Is eu storage.ErrUserNotFound) eqn:Hnf;
      [ rewrite (Login_run_not_found a email password appID m _ _ _ Hu Hnf)
      | rewrite (Login_run_lookup_error a email password appID m _ _ _
                   Hu Hnf) ];
      cbn [fst snd trace]; eexists; (split; [ reflexivity | ]);
      (split; [ reflexivity | ]); (split; [ eauto | ]);
      (split; [ intros _ id Hin; absent Hin | ]);
      (split; [ intros (t & k & Hin); absent Hin | intros [=] ]). }
  destruct cerr as [ec | ] eqn:Hc; subst cerr.
  { rewrite (Login_run_mismatch a email password appID m _ _ _ Hu Hc).
    cbn [fst snd trace]. eexists. split; [ reflexivity | ].
    split; [ reflexivity | ]. split; [ eauto | ].
    split; [ intros _ id Hin; absent Hin | ].
    split; [ intros (t & k & Hin); absent Hin | intros [=] ]. }
  destruct aerr as [ea | ].
  { rewrite (Login_run_app_error a email password appID m _ _ _ _ _
               Hu Hc Ha).
    cbn [fst snd trace]. eexists. split; [ reflexivity | ].
    split; [ reflexivity | ]. split; [ eauto | ].
    split; [ intros [[? [=]] | [? [=]]] | ].
    split; [ intros (t & k & Hin); absent Hin | intros [=] ]. }
  destruct (SignedString tok key) as [s [es | ]] eqn:Hs; subst tok key.
  - rewrite (Login_run_sign_error a email password appID m _ _ _ _ _ _ _ _
               Hu Hc Ha Hn Hs).
    cbn [fst snd trace]. eexists. split; [ reflexivity | ].
    split; [ reflexivity | ].
    split; [ intros [[? [=]] | [[? [=]] | [? [=]]]] | ].
    split; [ intros [[? [=]] | [? [=]]] | ].
    split; [ done | intros [=] ].
  - rewrite (Login_run_issued a email password appID m _ _ _ _ _ _ _
               Hu Hc Ha Hn Hs).
    cbn [fst snd trace]. eexists. split; [ reflexivity | ].
    split; [ reflexivity | ].
    split; [ intros [[? [=]] | [[? [=]] | [? [=]]]] | ].
    split; [ intros [[? [=]] | [? [=]]] | ].
    split; done.
Qed.

Lemma Login_steps_in_order_witness :
  Login_reads (fake.service time.Hour) "a@x.com" 1 (fake.start fake.world0)
    fake.alice None (models.mkApp 1 "test-secret") None
    (time.mkTime 1700000000 750000000) ∧
  ∃ suffix,
    trace (auth.Login (fake.service time.Hour) "a@x.com" "wrong" 1
             (fake.start fake.world0)).2
      = trace (fake.start fake.world0) ++ suffix ∧
    calls suffix
      = [ EvUser "a@x.com";
          EvCompareHashAndPassword (models.PassHash fake.alice)
            (list_byte_of_string "wrong") ].
Proof.
  assert (Login_reads (fake.service time.Hour) "a@x.com" 1
            (fake.start fake.world0) fake.alice None
            (models.mkApp 1 "test-secret") None
            (time.mkTime 1700000000 750000000)) as Hreads.
  { eexists _, _, _. repeat split; reflexivity. }
  split; [ exact Hreads | ].
  destruct (Login_steps_in_order (PF := fake.platform)
              (fake.service time.Hour) "a@x.com" "wrong" 1
              (fake.start fake.world0) fake.alice None
              (models.mkApp 1 "test-secret") None
              (time.mkTime 1700000000 750000000) Hreads)
    as (suffix & Htr & Hcalls & _).
  exists suffix. split; [ exact Htr | exact Hcalls ].
Defined.

(* ===================================================================== *)
(** ** Repeated Login *)
(* ===================================================================== *)

(** C9.  Two Logins with the same arguments, the second on the machine
    the first left, both successful: each run calls the signer once, on a
    token built from its own reading of the clock, and returns what the
    signer gave for it; and when the second reading is not earlier than
    the first, the second expiry is not smaller than the first. *)
Theorem Login_twice_issues_twice
    {W : Type} {PF : Platform W} (a : auth.Auth W)
    (email password : string) (appID : Z) (m : Machine W)
    (user1 : models.User) (uerr1 : option error)
    (app1 : models.App) (aerr1 : option error) (now1 : time.Time)
    (user2 : models.User) (uerr2 : option error)
    (app2 : models.App) (aerr2 : option error) (now2 : time.Time) :
  let run1 := auth.Login a email password appID m in
  let run2 := auth.Login a email password appID run1.2 in
  let tok1 := jwt.build user1 app1 (auth.tokenTTL a) now1 in
  let tok2 := jwt.build user2 app2 (auth.tokenTTL a) now2 in
  let key1 := list_byte_of_string (models.Secret app1) in
  let key2 := list_byte_of_string (models.Secret app2) in
  Login_reads a email appID m user1 uerr1 app1 aerr1 now1 →
  Login_reads a email appID run1.2 user2 uerr2 app2 aerr2 now2 →
  run1.1.2 = None →
  run2.1.2 = None →
  time.wf now1 →
  time.wf now2 →
  signings (trace run2.2)
    = signings (trace m)
        ++ [ EvSignedString tok1 key1; EvSignedString tok2 key2 ] ∧
  run1.1 = SignedString tok1 key1 ∧
  run2.1 = SignedString tok2 key2 ∧
  exp_of tok1 = Some (time.Unix (time.Add now1 (auth.tokenTTL a))) ∧
  exp_of tok2 = Some (time.Unix (time.Add now2 (auth.tokenTTL a))) ∧
  (time.le now1 now2 →
   time.Unix (time.Add now1 (auth.tokenTTL a))
   <= time.Unix (time.Add now2 (auth.tokenTTL a))).
Proof.
  intros run1 run2 tok1 tok2 key1 key2 Hr1 Hr2 Hok1 Hok2 Hwf1 Hwf2.
  destruct (Login_success_inv a email password appID m
              user1 uerr1 app1 aerr1 now1 Hr1 Hok1)
    as (_ & _ & _ & s1 & Hs1 & Hres1 & Htr1).
  destruct (Login_success_inv a email password appID run1.2
              user2 uerr2 app2 aerr2 now2 Hr2 Hok2)
    as (_ & _ & _ & s2 & Hs2 & Hres2 & Htr2).
  fold run1 in Hres1, Htr1. fold run2 in Hres2, Htr2.
  fold tok1 key1 in Hs1. fold tok2 key2 in Hs2.
  split.
  { rewrite Htr2, Htr1. unfold signings.
    rewrite !List.filter_app. cbn [List.filter Login_full_trace].
    by rewrite <- app_assoc. }
  split; [ by rewrite Hres1, Hs1 | ].
  split; [ by rewrite Hres2, Hs2 | ].
  split; [ apply exp_of_build | ].
  split; [ apply exp_of_build | ].
  intros Hle. by apply Unix_Add_monotone.
Qed.

Lemma Login_twice_issues_twice_witness :
  let a := fake.service time.Hour in
  let m := fake.start fake.world0 in
  let run1 := auth.Login a "a@x.com" "pw123" 1 m in
  let run2 := auth.Login a "a@x.com" "pw123" 1 run1.2 in
  let app := models.mkApp 1 "test-secret" in
  let now1 := time.mkTime 1700000000 750000000 in
  let now2 := time.mkTime 1700000002 250000000 in
  Login_reads a "a@x.com" 1 m fake.alice None app None now1 ∧
  Login_reads a "a@x.com" 1 run1.2 fake.alice None app None now2 ∧
  run1.1.2 = None ∧
  run2.1.2 = None ∧
  time.wf now1 ∧
  time.wf now2 ∧
  exp_of (jwt.build fake.alice app time.Hour now1) = Some 1700003600 ∧
  exp_of (jwt.build fake.alice app time.Hour now2) = Some 1700003602 ∧
  run1.1.1 ≠ run2.1.1.
Proof.
  intros a m run1 run2 app now1 now2.
  assert (Login_reads a "a@x.com" 1 m fake.alice None app None now1)
    as Hr1.
  { eexists _, _, _. repeat split; reflexivity. }
  assert (Login_reads a "a@x.com" 1 run1.2 fake.alice None app None now2)
    as Hr2.
  { eexists _, _, _. repeat split; reflexivity. }
  assert (time.wf now1) as Hwf1 by (unfold time.wf; cbn; lia).
  assert (time.wf now2) as Hwf2 by (unfold time.wf; cbn; lia).
  destruct (Login_twice_issues_twice (PF := fake.platform)
              a "a@x.com" "pw123" 1 m
              fake.alice None app None now1
              fake.alice None app None now2
              Hr1 Hr2 ltac:(reflexivity) ltac:(reflexivity) Hwf1 Hwf2)
    as (_ & _ & _ & Hexp1 & Hexp2 & _).
  change (auth.tokenTTL a) with time.Hour in Hexp1, Hexp2.
  split; [ exact Hr1 | ]. split; [ exact Hr2 | ].
  split; [ reflexivity | ]. split; [ reflexivity | ].
  split; [ exact Hwf1 | ]. split; [ exact Hwf2 | ].
  split; [ rewrite Hexp1; reflexivity | ].
  split; [ rewrite Hexp2; reflexivity | ].
  vm_compute. discriminate.
Defined.

(* ===================================================================== *)
(** ** Zero values beside an error *)
(* ===================================================================== *)

(** C10.  Whenever one of the three operations returns an error, the
    value beside it is the zero value of its type: the empty string for
    Login, 0 for RegisterNewUser, false for IsAdmin. *)
Theorem zero_value_beside_error
    {W : Type} {PF : Platform W} (a : auth.Auth W)
    (email password : string) (appID userID : Z) (m : Machine W) :
  (is_Some (auth.Login a email password appID m).1.2 →
   (auth.Login a email password appID m).1.1 = "") ∧
  (is_Some (auth.RegisterNewUser a email password m).1.2 →
   (auth.RegisterNewUser a email password m).1.1 = 0) ∧
  (is_Some (auth.IsAdmin a userID m).1.2 →
   (auth.IsAdmin a userID m).1.1 = false).
Proof.
  split; [ | split ]; run;
    repeat (match goal with
            | |- context [ match ?x with _ => _ end ] => destruct x eqn:?
            end; cbn [world trace fst snd]);
    first [ reflexivity | intros [? [=]] ].
Qed.

(* ===================================================================== *)
(** ** Login: the remaining paths *)
(* ===================================================================== *)

(** X1.  When the user reader fails with an error that is not "not
    found", Login returns that error wrapped under the operation name and
    an empty token, makes no further call (the password is not compared,
    the application is not read) and leaves the world as the reader left
    it; for an error of the storage layer the kind is Internal. *)
Theorem Login_other_lookup_failure_is_wrapped
    {W : Type} {PF : Platform W} (a : auth.Auth W)
    (email password : string) (appID : Z) (m : Machine W)
    (user : models.User) (err : error) (w1 : W) :
  auth.User (auth.usrProvider a) email (world m) = ((user, Some err), w1) →
  errors.Is err storage.ErrUserNotFound = false →
  (auth.Login a email password appID m).1
    = ("", Some (fmt.Errorf "auth.Login" err)) ∧
  world (auth.Login a email password appID m).2 = w1 ∧
  (∃ suffix,
     trace (auth.Login a email password appID m).2 = trace m ++ suffix ∧
     calls suffix = [ EvUser email ]) ∧
  (foreign err = true →
   fails_with (auth.Login a email password appID m).1 Internal).
Proof.
  intros Hu Hnf.
  rewrite (Login_run_lookup_error a email password appID m user err w1
             Hu Hnf).
  cbn [fst snd world trace].
  split; [ reflexivity | ]. split; [ reflexivity | ].
  split; [ eexists; split; reflexivity | ].
  intros Hf. by apply fails_with_Internal.
Qed.

Lemma Login_other_lookup_failure_is_wrapped_witness :
  auth.User (auth.usrProvider (fake.service time.Hour)) "a@x.com"
    (world (fake.start fake.broken))
  = ((models.zeroUser,
      Some (fmt.Errorf "storage.sqlite.User" fake.ErrDiskIO)),
     fake.broken) ∧
  errors.Is (fmt.Errorf "storage.sqlite.User" fake.ErrDiskIO)
    storage.ErrUserNotFound = false ∧
  (auth.Login (fake.service time.Hour) "a@x.com" "pw123" 1
     (fake.start fake.broken)).1
  = ("", Some (fmt.Errorf "auth.Login"
                 (fmt.Errorf "storage.sqlite.User" fake.ErrDiskIO))).
Proof.
  split; [ reflexivity | split; [ reflexivity | ] ].
  apply (Login_other_lookup_failure_is_wrapped (PF := fake.platform)
           (fake.service time.Hour) "a@x.com" "pw123" 1
           (fake.start fake.broken) models.zeroUser
           (fmt.Errorf "storage.sqlite.User" fake.ErrDiskIO) fake.broken
           ltac:(reflexivity) ltac:(reflexivity)).
Defined.

(** X3.  Login returns no error exactly when the user is found, the
    password verifies, the application is found and the signer returns no
    error; it then returns the signer's token. *)
Theorem Login_succeeds_iff_every_step_does
    {W : Type} {PF : Platform W} (a : auth.Auth W)
    (email password : string) (appID : Z) (m : Machine W)
    (user : models.User) (uerr : option error)
    (app : models.App) (aerr : option error) (now : time.Time) :
  Login_reads a email appID m user uerr app aerr now →
  let cerr :=
    CompareHashAndPassword (models.PassHash user)
      (list_byte_of_string password) in
  let signed :=
    SignedString (jwt.build user app (auth.tokenTTL a) now)
      (list_byte_of_string (models.Secret app)) in
  ((auth.Login a email password appID m).1.2 = None ↔
   uerr = None ∧ cerr = None ∧ aerr = None ∧ signed.2 = None) ∧
  (uerr = None → cerr = None → aerr = None → signed.2 = None →
   (auth.Login a email password appID m).1 = (signed.1, None)).
Proof.
  intros Hreads cerr signed.
  assert (uerr = None → cerr = None → aerr = None → signed.2 = None →
          (auth.Login a email password appID m).1 = (signed.1, None))
    as Hback.
  { intros -> Hc -> Hs. destruct Hreads as (w1 & w2 & w3 & Hu & Ha & Hn).
    subst cerr signed. destruct (SignedString _ _) as [s serr] eqn:Hsig.
    cbn in Hs. subst serr.
    by rewrite (Login_run_issued a email password appID m _ _ _ _ _ _ _
                  Hu Hc Ha Hn Hsig). }
  split; [ | exact Hback ]. split.
  - intros Hok.
    destruct (Login_success_inv a email password appID m
                user uerr app aerr now Hreads Hok)
      as (-> & Hc & -> & s & Hs & _).
    subst cerr signed. by rewrite Hc, Hs.
  - intros (Hu & Hc & Ha & Hs). by rewrite (Hback Hu Hc Ha Hs).
Qed.

Lemma Login_succeeds_iff_every_step_does_witness :
  Login_reads (fake.service time.Hour) "a@x.com" 1 (fake.start fake.world0)
    fake.alice None (models.mkApp 1 "test-secret") None
    (time.mkTime 1700000000 750000000) ∧
  (auth.Login (fake.service time.Hour) "a@x.com" "pw123" 1
     (fake.start fake.world0)).1.2 = None.
Proof.
  assert (Login_reads (fake.service time.Hour) "a@x.com" 1
            (fake.start fake.world0) fake.alice None
            (models.mkApp 1 "test-secret") None
            (time.mkTime 1700000000 750000000)) as Hreads.
  { eexists _, _, _. repeat split; reflexivity. }
  split; [ exact Hreads | ].
  apply (Login_succeeds_iff_every_step_does (PF := fake.platform)
           (fake.service time.Hour) "a@x.com" "pw123" 1
           (fake.start fake.world0) fake.alice None
           (models.mkApp 1 "test-secret") None
           (time.mkTime 1700000000 750000000) Hreads).
  repeat split.
Defined.

(* ===================================================================== *)
(** ** RegisterNewUser and IsAdmin: steps and results *)
(* ===================================================================== *)

(** X4.  RegisterNewUser hashes the bytes of the password at bcrypt's
    default cost and then, only if that succeeded, calls the writer once
    with the email and the hash bcrypt returned.  It returns no error
    exactly when both succeed, and then returns the writer's ID and leaves
    the world as the writer left it; after a hashing failure the writer
    is not called and the world is as the hashing left it. *)
Theorem Register_steps_in_order
    {W : Type} {PF : Platform W} (a : auth.Auth W)
    (email password : string) (m : Machine W)
    (h : list Byte.byte) (herr : option error) (w1 : W)
    (id : Z) (serr : option error) (w2 : W) :
  GenerateFromPassword (list_byte_of_string password) bcrypt.DefaultCost
    (world m) = ((h, herr), w1) →
  auth.SaveUser (auth.usrSaver a) email h w1 = ((id, serr), w2) →
  let run := auth.RegisterNewUser a email password m in
  ∃ suffix,
    trace run.2 = trace m ++ suffix ∧
    calls suffix =
      match herr with
      | Some _ =>
          [ EvGenerateFromPassword (list_byte_of_string password) 10 ]
      | None =>
          [ EvGenerateFromPassword (list_byte_of_string password) 10;
            EvSaveUser email h ]
      end ∧
    (run.1.2 = None ↔ herr = None ∧ serr = None) ∧
    (run.1.2 = None → run.1.1 = id) ∧
    world run.2 = match herr with Some _ => w1 | None => w2 end.
Proof.
  intros Hg Hs run. subst run. destruct herr as [eh | ].
  { rewrite (Register_run_hash_error a email password m h eh w1 Hg).
    cbn [fst snd trace world]. eexists. split; [ reflexivity | ].
    split; [ reflexivity | ].
    split; [ split; [ intros [=] | intros [[=] _] ] | ].
    split; [ intros [=] | reflexivity ]. }
  destruct serr as [es | ].
  2:{ rewrite (Register_run_saved a email password m h w1 id w2 Hg Hs).
      cbn [fst snd trace world]. eexists. split; [ reflexivity | ].
      by repeat split. }
  destruct (errors.Is es storage.ErrUserExists) eqn:Hex;
    [ rewrite (Register_run_exists a email password m h w1 id es w2
                 Hg Hs Hex)
    | rewrite (Register_run_save_error a email password m h w1 id es w2
                 Hg Hs Hex) ];
    cbn [fst snd trace world]; eexists; (split; [ reflexivity | ]);
    (split; [ reflexivity | ]);
    (split; [ split; [ intros [=] | intros [_ [=]] ] | ]);
    (split; [ intros [=] | reflexivity ]).
Qed.

Lemma Register_steps_in_order_witness :
  GenerateFromPassword (list_byte_of_string "pw123") bcrypt.DefaultCost
    (world (fake.start fake.empty))
  = ((fake.hash (list_byte_of_string "pw123"), None), fake.empty) ∧
  auth.SaveUser (auth.usrSaver (fake.service time.Hour)) "a@x.com"
    (fake.hash (list_byte_of_string "pw123")) fake.empty
  = ((1, None), fake.world0) ∧
  ∃ suffix,
    trace (auth.RegisterNewUser (fake.service time.Hour) "a@x.com" "pw123"
             (fake.start fake.empty)).2
    = trace (fake.start fake.empty) ++ suffix ∧
    calls suffix
    = [ EvGenerateFromPassword (list_byte_of_string "pw123") 10;
        EvSaveUser "a@x.com" (fake.hash (list_byte_of_string "pw123")) ].
Proof.
  split; [ reflexivity | split; [ reflexivity | ] ].
  destruct (Register_steps_in_order (PF := fake.platform)
              (fake.service time.Hour) "a@x.com" "pw123"
              (fake.start fake.empty)
              (fake.hash (list_byte_of_string "pw123")) None fake.empty
              1 None fake.world0
              ltac:(reflexivity) ltac:(reflexivity))
    as (suffix & Htr & Hcalls & _).
  exists suffix. split; [ exact Htr | exact Hcalls ].
Defined.

(** X5.  IsAdmin asks the admin-status reader once, for the given user,
    and leaves the world as the reader left it.  It returns no error
    exactly when the reader returned none, and then returns the reader's
    answer unchanged. *)
Theorem IsAdmin_returns_reader_answer
    {W : Type} {PF : Platform W} (a : auth.Auth W) (userID : Z)
    (m : Machine W) (b : bool) (err : option error) (w1 : W) :
  auth.ProviderIsAdmin (auth.usrProvider a) userID (world m)
    = ((b, err), w1) →
  let run := auth.IsAdmin a userID m in
  (∃ suffix,
     trace run.2 = trace m ++ suffix ∧
     calls suffix = [ EvIsAdmin userID ]) ∧
  world run.2 = w1 ∧
  (run.1.2 = None ↔ err = None) ∧
  (err = None → run.1 = (b, None)).
Proof.
  intros Hq run. subst run. destruct err as [e | ].
  - destruct (errors.Is e storage.ErrUserNotFound) eqn:Hnf;
      [ rewrite (IsAdmin_run_not_found a userID m b e w1 Hq Hnf)
      | rewrite (IsAdmin_run_error a userID m b e w1 Hq Hnf) ];
      cbn [fst snd trace world];
      (split; [ eexists; split; reflexivity | ]);
      (split; [ reflexivity | ]);
      (split; [ split; intros [=] | intros [=] ]).
  - rewrite (IsAdmin_run_answer a userID m b w1 Hq).
    cbn [fst snd trace world].
    split; [ eexists; split; reflexivity | ]. by repeat split.
Qed.

Lemma IsAdmin_returns_reader_answer_witness :
  auth.ProviderIsAdmin (auth.usrProvider (fake.service time.Hour)) 1
    (world (fake.start fake.world0))
  = ((false, None), fake.world0) ∧
  (auth.IsAdmin (fake.service time.Hour) 1 (fake.start fake.world0)).1
  = (false, None).
Proof.
  split; [ reflexivity | ].
  apply (IsAdmin_returns_reader_answer (PF := fake.platform)
           (fake.service time.Hour) 1 (fake.start fake.world0)
           false None fake.world0 ltac:(reflexivity)).
  reflexivity.
Defined.

(* ===================================================================== *)
(** ** Shape of the returned errors, calls made, lines logged *)
(* ===================================================================== *)

(** X6.  Every error that Login, RegisterNewUser or IsAdmin returns is one
    wrapper around another error: [errors.Unwrap] gives the wrapped error,
    and the message is the operation's name, a colon and a space, and the
    message of the wrapped error. *)
Theorem returned_errors_are_wrapped_once
    {W : Type} {PF : Platform W} (a : auth.Auth W)
    (email password : string) (appID userID : Z) (m : Machine W) :
  (∀ e, (auth.Login a email password appID m).1.2 = Some e →
        ∃ inner, e = fmt.Errorf "auth.Login" inner ∧
                 errors.Unwrap e = Some inner ∧
                 errors.Error e = "auth.Login: " +:+ errors.Error inner) ∧
  (∀ e, (auth.RegisterNewUser a email password m).1.2 = Some e →
        ∃ inner, e = fmt.Errorf "auth.RegisterNewUser" inner ∧
                 errors.Unwrap e = Some inner ∧
                 errors.Error e
                 = "auth.RegisterNewUser: " +:+ errors.Error inner) ∧
  (∀ e, (auth.IsAdmin a userID m).1.2 = Some e →
        ∃ inner, e = fmt.Errorf "auth.IsAdmin" inner ∧
                 errors.Unwrap e = Some inner ∧
                 errors.Error e = "auth.IsAdmin: " +:+ errors.Error inner).
Proof.
  split; [ | split ]; run;
    repeat (match goal with
            | |- context [ match ?x with _ => _ end ] => destruct x eqn:?
            end; cbn [world trace fst snd]);
    intros returned_error He; try discriminate He; injection He as <-;
    eexists; (split; [ reflexivity | split; reflexivity ]).
Qed.

(** X7.  Each operation calls only its own collaborators, on the
    arguments it was given: Login never calls the writer, the hashing or
    the admin-status reader, and reads the user and the application for
    the given email and id only; RegisterNewUser calls nothing but the
    hashing, at the default cost, and the writer, for the given email;
    IsAdmin calls nothing but the admin-status reader, for the given
    user. *)
Theorem operations_call_only_their_collaborators
    {W : Type} {PF : Platform W} (a : auth.Auth W)
    (email password : string) (appID userID : Z) (m : Machine W) :
  (∃ suffix,
     trace (auth.Login a email password appID m).2 = trace m ++ suffix ∧
     Forall (footprint.Login_may email appID) suffix) ∧
  (∃ suffix,
     trace (auth.RegisterNewUser a email password m).2 = trace m ++ suffix ∧
     Forall (footprint.Register_may email) suffix) ∧
  (∃ suffix,
     trace (auth.IsAdmin a userID m).2 = trace m ++ suffix ∧
     Forall (footprint.IsAdmin_may userID) suffix).
Proof.
  split; [ | split ]; run;
    repeat (match goal with
            | |- context [ auth.User ?p ?e ?w ] =>
                destruct (auth.User p e w) as [[? ?] ?]
            | |- context [ auth.App ?p ?i ?w ] =>
                destruct (auth.App p i w) as [[? ?] ?]
            | |- context [ auth.ProviderIsAdmin ?p ?i ?w ] =>
                destruct (auth.ProviderIsAdmin p i w) as [[? ?] ?]
            | |- context [ auth.SaveUser ?p ?e ?h ?w ] =>
                destruct (auth.SaveUser p e h w) as [[? ?] ?]
            | |- context [ GenerateFromPassword ?x ?c ?w ] =>
                destruct (GenerateFromPassword x c w) as [[? ?] ?]
            | |- context [ Now ?w ] => destruct (Now w) as [? ?]
            | |- context [ SignedString ?t ?k ] =>
                destruct (SignedString t k) as [? ?]
            | |- context [ CompareHashAndPassword ?h ?x ] =>
                destruct (CompareHashAndPassword h x)
            | |- context [ errors.Is ?e ?t ] => destruct (errors.Is e t)
            | |- context [ match ?x with _ => _ end ] => is_var x; destruct x
            end; cbn [world trace fst snd]);
    rewrite <- ?app_assoc; eexists; (split; [ reflexivity | ]);
    cbn [app]; repeat constructor.
Qed.



(* ===================================================================== *)
(** ** NewToken: what the token depends on *)
(* ===================================================================== *)

(** X9.  NewToken reads the user's ID and email and nothing else of the
    user: two users that agree on both get the same run, with the same
    token handed to the signer, whatever their password hashes. *)
Theorem NewToken_ignores_password_hash
    {W : Type} {PF : Platform W}
    (user user' : models.User) (app : models.App)
    (duration : time.Duration) (m : Machine W) :
  models.ID user = models.ID user' →
  models.Email user = models.Email user' →
  jwt.NewToken user app duration m = jwt.NewToken user' app duration m.
Proof.
  intros Hid Hemail.
  assert (∀ now, jwt.build user app duration now
                 = jwt.build user' app duration now) as Hbuild.
  { intros now. unfold jwt.build. by rewrite Hid, Hemail. }
  run. destruct (Now (world m)) as [now w']. cbn [fst snd world trace].
  by rewrite Hbuild.
Qed.

Lemma NewToken_ignores_password_hash_witness :
  models.ID fake.alice = models.ID (models.mkUser 1 "a@x.com" []) ∧
  models.Email fake.alice = models.Email (models.mkUser 1 "a@x.com" []) ∧
  jwt.NewToken fake.alice (models.mkApp 1 "test-secret") time.Hour
    (fake.start fake.world0)
  = jwt.NewToken (models.mkUser 1 "a@x.com" [])
      (models.mkApp 1 "test-secret") time.Hour (fake.start fake.world0).
Proof.
  split; [ reflexivity | split; [ reflexivity | ] ].
  apply (NewToken_ignores_password_hash (PF := fake.platform)
           fake.alice (models.mkUser 1 "a@x.com" [])
           (models.mkApp 1 "test-secret") time.Hour
           (fake.start fake.world0));
    reflexivity.
Defined.

(** X10.  NewToken takes any duration.  For a clock reading with its
    nanoseconds in range, the expiry claim is the reading's second plus
    the duration's whole seconds, or one more; it is exactly that sum when
    the duration is a whole number of seconds.  A duration of zero or less
    is not refused: the expiry is then not after the second of issue. *)
Theorem NewToken_expiry_bounds
    (user : models.User) (app : models.App)
    (duration : time.Duration) (now : time.Time) :
  time.wf now →
  ∃ exp,
    exp_of (jwt.build user app duration now) = Some exp ∧
    time.Unix now + duration `div` 1000000000 <= exp
      <= time.Unix now + duration `div` 1000000000 + 1 ∧
    (duration `mod` 1000000000 = 0 →
     exp = time.Unix now + duration `div` 1000000000) ∧
    (0 <= duration → time.Unix now <= exp) ∧
    (duration <= 0 → exp <= time.Unix now).
Proof.
  intros Hwf. eexists. split; [ apply exp_of_build | ].
  rewrite (Unix_Add_floor now duration Hwf).
  unfold time.wf, time.UnixNano, time.Unix in *.
  repeat split; intros; Z.div_mod_to_equations; lia.
Qed.

Lemma NewToken_expiry_bounds_witness :
  time.wf (time.mkTime 1700000000 750000000) ∧
  exp_of (jwt.build fake.alice (models.mkApp 1 "test-secret")
            (-1500000000) (time.mkTime 1700000000 750000000))
  = Some 1699999999.
Proof.
  assert (time.wf (time.mkTime 1700000000 750000000)) as Hwf.
  { unfold time.wf. cbn. lia. }
  split; [ exact Hwf | ].
  destruct (NewToken_expiry_bounds fake.alice
              (models.mkApp 1 "test-secret") (-1500000000)
              (time.mkTime 1700000000 750000000) Hwf)
    as (exp & Hexp & _).
  rewrite Hexp. rewrite exp_of_build in Hexp.
  injection Hexp as <-. reflexivity.
Defined.

(* ===================================================================== *)
(** ** The migrator *)
(* ===================================================================== *)

(** X11.  Without a storage path or without a migrations path, main
    panics before it opens anything: no call is made, nothing is printed,
    the world is untouched.  The storage path is checked first. *)
Theorem main_requires_both_paths
    {W M : Type} {L : migrator.Library W M}
    (fl : migrator.Flags) (w : W) :
  migrator.storagePath fl = "" ∨ migrator.migrationPath fl = "" →
  ∃ msg,
    migrator.main fl w = (Panicked (PanicString msg), [], w) ∧
    (migrator.storagePath fl = "" → msg = "storage path is required") ∧
    (migrator.storagePath fl ≠ "" → msg = "migrations path is required").
Proof.
  intros Hmissing. unfold migrator.main.
  destruct (String.eqb_spec (migrator.storagePath fl) "") as [Hs | Hs].
  { eexists. split; [ reflexivity | ]. split; [ done | ].
    intros Hne. by destruct Hne. }
  destruct Hmissing as [Hs' | Hm]; [ by destruct Hs | ].
  destruct (String.eqb_spec (migrator.migrationPath fl) "") as [_ | Hm'];
    [ | by destruct Hm' ].
  eexists. split; [ reflexivity | ]. split; [ | done ].
  intros Hs'. by destruct Hs.
Qed.

Lemma main_requires_both_paths_witness :
  (migrator.storagePath (migrator.mkFlags "./storage/sso.db" "" "t") = "" ∨
   migrator.migrationPath (migrator.mkFlags "./storage/sso.db" "" "t") = "") ∧
  migrator.main (migrator.mkFlags "./storage/sso.db" "" "t") fakeops.fresh
  = (Panicked (PanicString "migrations path is required"), [],
     fakeops.fresh).
Proof.
  split; [ right; reflexivity | ].
  destruct (main_requires_both_paths (L := fakeops.library)
              (migrator.mkFlags "./storage/sso.db" "" "t") fakeops.fresh
              ltac:(right; reflexivity))
    as (msg & Hrun & _ & Hmsg).
  rewrite Hrun, Hmsg; [ reflexivity | discriminate ].
Defined.

(** X12.  With both paths given, main returns normally exactly when the
    source and database open and Up either succeeds or fails with an
    error that matches the library's no-change sentinel, wrapped or not;
    it then prints one line, which says which of the two happened.  A
    failure to open panics with the library's error before Up is called;
    any other failure of Up panics with that error and prints nothing. *)
Theorem main_returns_iff_applied_or_no_change
    {W M : Type} {L : migrator.Library W M}
    (fl : migrator.Flags) (w : W)
    (m : M) (nerr : option error) (w1 : W)
    (uerr : option error) (w2 : W) :
  migrator.storagePath fl ≠ "" →
  migrator.migrationPath fl ≠ "" →
  migrator.New (migrator.sourceURL fl) (migrator.databaseURL fl) w
    = ((m, nerr), w1) →
  migrator.Up m w1 = (uerr, w2) →
  let run := migrator.main fl w in
  let opened :=
    migrator.EvNew (migrator.sourceURL fl) (migrator.databaseURL fl) in
  (returned run.1.1 = true ↔
   nerr = None ∧
   (uerr = None ∨
    ∃ e, uerr = Some e ∧ errors.Is e migrate.ErrNoChange = true)) ∧
  migrator.printed run.1.2 =
    match nerr, uerr with
    | Some _, _ => []
    | None, None => [ "Migrations applied successfully" ]
    | None, Some e =>
        if errors.Is e migrate.ErrNoChange
        then [ "No new migrations to apply" ] else []
    end ∧
  (∀ e, nerr = Some e → run = (Panicked (PanicError e), [ opened ], w1)) ∧
  (nerr = None →
   ∀ e, uerr = Some e → errors.Is e migrate.ErrNoChange = false →
        run = (Panicked (PanicError e), [ opened; migrator.EvUp ], w2)).
Proof.
  intros Hs Hm Hnew Hup run opened. subst run opened.
  unfold migrator.main.
  destruct (String.eqb_spec (migrator.storagePath fl) "") as [ | _];
    [ done | ].
  destruct (String.eqb_spec (migrator.migrationPath fl) "") as [ | _];
    [ done | ].
  rewrite Hnew. destruct nerr as [en | ].
  { cbn. split; [ split; [ intros [=] | intros [[=] _] ] | ].
    split; [ reflexivity | ].
    split; [ by intros e [= <-] | intros [=] ]. }
  rewrite Hup. destruct uerr as [eu | ].
  2:{ cbn. split; [ split; [ auto | reflexivity ] | ].
      split; [ reflexivity | ].
      split; [ intros e [=] | intros _ e [=] ]. }
  destruct (errors.Is eu migrate.ErrNoChange) eqn:Hnc; cbn.
  - split; [ split; [ eauto | reflexivity ] | ].
    split; [ reflexivity | ].
    split; [ intros e [=] | intros _ e [= <-]; congruence ].
  - split.
    { split; [ intros [=] | ].
      intros (_ & [[=] | (e & [= <-] & He)]). congruence. }
    split; [ reflexivity | ].
    split; [ intros e [=] | by intros _ e [= <-] _ ].
Qed.

Lemma main_returns_iff_applied_or_no_change_witness :
  migrator.storagePath fakeops.flags ≠ "" ∧
  migrator.migrationPath fakeops.flags ≠ "" ∧
  migrator.New (migrator.sourceURL fakeops.flags)
    (migrator.databaseURL fakeops.flags) fakeops.current
  = ((tt, None), fakeops.current) ∧
  migrator.Up tt fakeops.current
  = (Some migrate.ErrNoChange, fakeops.current) ∧
  migrator.printed (migrator.main fakeops.flags fakeops.current).1.2
  = [ "No new migrations to apply" ].
Proof.
  split; [ discriminate | ]. split; [ discriminate | ].
  split; [ reflexivity | ]. split; [ reflexivity | ].
  destruct (main_returns_iff_applied_or_no_change (L := fakeops.library)
              fakeops.flags fakeops.current tt None fakeops.current
              (Some migrate.ErrNoChange) fakeops.current
              ltac:(discriminate) ltac:(discriminate)
              ltac:(reflexivity) ltac:(reflexivity))
    as (_ & Hprinted & _).
  exact Hprinted.
Defined.

(* ===================================================================== *)
(** ** Loading the configuration *)
(* ===================================================================== *)

(** X13.  The path MustLoad uses is the flag's value when that is not
    empty, and the value of CONFIG_PATH otherwise; the environment is read
    only in the second case.  MustLoad returns a configuration exactly
    when that path is not empty, the file is not reported missing and the
    reader returns the configuration without error.  With an empty path it
    panics before it looks at any file. *)
Theorem MustLoad_returns_iff
    {W : Type} {os : config.OS W} (flagValue : string) (w : W) :
  let path :=
    if String.eqb flagValue "" then config.Getenv "CONFIG_PATH" w
    else flagValue in
  (config.fetchConfigPath flagValue w).1 = path ∧
  (flagValue ≠ "" → (config.fetchConfigPath flagValue w).2 = []) ∧
  (∀ cfg,
     (config.MustLoad flagValue w).1 = Returned cfg ↔
     path ≠ "" ∧
     config.IsNotExist (config.Stat path w) = false ∧
     config.ReadConfig path w = (cfg, None)) ∧
  (path = "" →
   (config.MustLoad flagValue w).1
     = Panicked (PanicString "config path is required") ∧
   ∀ name,
     ¬ In (config.EvStat name) (config.MustLoad flagValue w).2 ∧
     ¬ In (config.EvReadConfig name) (config.MustLoad flagValue w).2).
Proof.
  intros path.
  assert (config.fetchConfigPath flagValue w
          = (path, if String.eqb flagValue ""
                   then [ config.EvGetenv "CONFIG_PATH" ] else []))
    as Hfetch.
  { unfold config.fetchConfigPath. subst path.
    by destruct (String.eqb flagValue ""). }
  split; [ by rewrite Hfetch | ].
  split.
  { intros Hflag. rewrite Hfetch. cbn.
    by destruct (String.eqb_spec flagValue ""). }
  unfold config.MustLoad. rewrite Hfetch. clearbody path.
  destruct (String.eqb_spec path "") as [Hempty | Hpath].
  { split.
    - intros cfg. split; [ intros [=] | intros [Hne _]; by destruct Hne ].
    - intros _. split; [ reflexivity | ].
      intros name. cbn. destruct (String.eqb flagValue ""); cbn;
        split; intros Hin; intuition discriminate. }
  split; [ | intros Hempty; by destruct Hpath ].
  intros cfg.
  destruct (config.IsNotExist (config.Stat path w)) eqn:Hstat.
  { cbn. split; [ intros [=] | intros (_ & [=] & _) ]. }
  destruct (config.ReadConfig path w) as [cfg' [err | ]] eqn:Hread; cbn.
  - split; [ intros [=] | intros (_ & _ & [=]) ].
  - split.
    + intros [= <-]. by repeat split.
    + by intros (_ & _ & [= <-]).
Qed.

(** X14.  Only a missing file stops MustLoad at the check of the file.
    When [os.Stat] fails otherwise (a file that exists and cannot be
    read, say), MustLoad goes on to the reader; and when the reader fails,
    the panic carries the text of the reader's error, a string, not the
    error value. *)
Theorem MustLoad_reads_after_other_stat_error
    {W : Type} {os : config.OS W} (path : string) (w : W)
    (serr rerr : error) (cfg : config.Config) :
  path ≠ "" →
  config.Stat path w = Some serr →
  config.NotExist serr = false →
  config.ReadConfig path w = (cfg, Some rerr) →
  config.MustLoad path w
  = (Panicked (PanicString (errors.Error rerr)),
     [ config.EvStat path; config.EvReadConfig path ]).
Proof.
  intros Hpath Hstat Hne Hread.
  assert (String.eqb path "" = false) as Heqb.
  { by destruct (String.eqb_spec path ""). }
  unfold config.MustLoad, config.fetchConfigPath.
  rewrite Heqb. cbn iota. rewrite Heqb, Hstat.
  cbn [config.IsNotExist]. rewrite Hne, Hread.
  reflexivity.
Qed.

Lemma MustLoad_reads_after_other_stat_error_witness :
  "./config/secret.yaml" ≠ "" ∧
  config.Stat "./config/secret.yaml" fakeops.host0
  = Some fakeops.ErrPermission ∧
  config.NotExist fakeops.ErrPermission = false ∧
  config.ReadConfig "./config/secret.yaml" fakeops.host0
  = (fakeops.zeroConfig, Some fakeops.ErrPermission) ∧
  config.MustLoad "./config/secret.yaml" fakeops.host0
  = (Panicked (PanicString "permission denied"),
     [ config.EvStat "./config/secret.yaml";
       config.EvReadConfig "./config/secret.yaml" ]).
Proof.
  split; [ discriminate | ]. split; [ reflexivity | ].
  split; [ reflexivity | ]. split; [ reflexivity | ].
  apply (MustLoad_reads_after_other_stat_error (os := fakeops.host_os)
           "./config/secret.yaml" fakeops.host0
           fakeops.ErrPermission fakeops.ErrPermission fakeops.zeroConfig
           ltac:(discriminate) ltac:(reflexivity) ltac:(reflexivity)
           ltac:(reflexivity)).
Defined.
